(** * gomiabdns: the Mail-in-a-Box custom DNS client and its command line

    A shallow embedding of package [gomiabdns] (the client library) and of
    [cmd/miabdns] (the command line front end), with the properties of the
    session handling, the request construction, the decoding of answers and
    the command dispatch.

    Go strings are byte strings: they are [string] here.  The package level
    variable [apikey] and everything the program does to the outside (HTTP
    round trips, standard output) live in a [World]; a Go function with
    effects is a function from worlds to outcomes, where an outcome is a
    normal return or a panic.  What the Go libraries compute (URL joining,
    gjson, encoding/json, TOTP, fmt, the network itself) is a parameter of
    the development, the class [Platform]. *)

From stdpp Require Import gmap strings list.
From Stdlib Require Import ZArith NArith Ascii String Lia.

Open Scope string_scope.

(** ** Strings: the parts of package [strings] and [slices] the code uses *)

Module GoStrings.

(** [strings.HasPrefix]. *)
Fixpoint HasPrefix (s prefix : string) : bool :=
  match prefix, s with
  | EmptyString, _ => true
  | String _ _, EmptyString => false
  | String p prefix', String c s' => Ascii.eqb c p && HasPrefix s' prefix'
  end.

(** [strings.Contains]: [substr] occurs somewhere in [s]. *)
Fixpoint Contains (s substr : string) : bool :=
  HasPrefix s substr ||
  match s with
  | EmptyString => false
  | String _ s' => Contains s' substr
  end.

(** [strings.Join]. *)
Fixpoint Join (elems : list string) (sep : string) : string :=
  match elems with
  | [] => ""
  | [e] => e
  | e :: rest => e ++ sep ++ Join rest sep
  end.

(** [slices.Contains] on a slice of strings. *)
Definition slices_Contains (l : list string) (s : string) : bool :=
  existsb (String.eqb s) l.

(** Whether the byte ['%'] occurs in a string. *)
Fixpoint has_percent (s : string) : bool :=
  match s with
  | EmptyString => false
  | String c s' => Ascii.eqb c "%" || has_percent s'
  end.

(** The line feed [fmt.Println] ends a line with. *)
Definition nl : string := String (ascii_of_nat 10) EmptyString.

End GoStrings.

(** ** [encoding/base64]: the standard encoding, with padding *)

Module Base64.

Definition alphabet : string :=
  "ABCDEFGHIJKLMNOPQRSTUVWXYZabcdefghijklmnopqrstuvwxyz0123456789+/".

(** The digit of a six bit value. *)
Definition digit (n : N) : ascii :=
  match String.get (N.to_nat n) alphabet with
  | Some c => c
  | None => "="%char
  end.

Definition pad : ascii := "="%char.

(** [base64.StdEncoding.EncodeToString]: three bytes give four digits; a
    last group of one or two bytes is padded with ['=']. *)
Fixpoint EncodeToString (src : string) : string :=
  match src with
  | EmptyString => ""
  | String a EmptyString =>
      let x := N_of_ascii a in
      String (digit (N.shiftr x 2))
        (String (digit (N.shiftl (N.land x 3) 4))
           (String pad (String pad "")))
  | String a (String b EmptyString) =>
      let x := N_of_ascii a in
      let y := N_of_ascii b in
      String (digit (N.shiftr x 2))
        (String (digit (N.lor (N.shiftl (N.land x 3) 4) (N.shiftr y 4)))
           (String (digit (N.shiftl (N.land y 15) 2))
              (String pad "")))
  | String a (String b (String c rest)) =>
      let x := N_of_ascii a in
      let y := N_of_ascii b in
      let z := N_of_ascii c in
      String (digit (N.shiftr x 2))
        (String (digit (N.lor (N.shiftl (N.land x 3) 4) (N.shiftr y 4)))
           (String (digit (N.lor (N.shiftl (N.land y 15) 2) (N.shiftr z 6)))
              (String (digit (N.land z 63)) (EncodeToString rest))))
  end.

End Base64.

(** ** [net/http]: headers *)

Module Header.

(** A header is Go's [map[string][]string]. *)
Abbreviation t := (gmap string (list string)).

Definition is_lower (c : ascii) : bool :=
  (97 <=? nat_of_ascii c)%nat && (nat_of_ascii c <=? 122)%nat.
Definition is_upper (c : ascii) : bool :=
  (65 <=? nat_of_ascii c)%nat && (nat_of_ascii c <=? 90)%nat.
Definition is_digit (c : ascii) : bool :=
  (48 <=? nat_of_ascii c)%nat && (nat_of_ascii c <=? 57)%nat.

(** The bytes allowed in a header field name (the tokens of RFC 7230). *)
Definition validHeaderFieldByte (c : ascii) : bool :=
  is_lower c || is_upper c || is_digit c ||
  existsb (Ascii.eqb c) (list_ascii_of_string "!#$%&'*+-.^_`|~").

(** Upper case after the start and after each ['-'], lower case elsewhere. *)
Fixpoint canonical_from (upper : bool) (s : string) : string :=
  match s with
  | EmptyString => ""
  | String c s' =>
      let c' :=
        if upper && is_lower c then ascii_of_nat (nat_of_ascii c - 32)
        else if negb upper && is_upper c then ascii_of_nat (nat_of_ascii c + 32)
        else c in
      String c' (canonical_from (Ascii.eqb c' "-") s')
  end.

(** [textproto.CanonicalMIMEHeaderKey]: a key with a byte that is not
    allowed in a field name is left as it is. *)
Definition CanonicalMIMEHeaderKey (s : string) : string :=
  if forallb validHeaderFieldByte (list_ascii_of_string s)
  then canonical_from true s else s.

(** [Header.Get]'s underlying lookup: the values of a key. *)
Definition Values (h : t) (key : string) : list string :=
  default [] (h !! CanonicalMIMEHeaderKey key).

(** [Header.Set]: the key now has this one value. *)
Definition Set_ (h : t) (key value : string) : t :=
  <[CanonicalMIMEHeaderKey key := [value]]> h.

(** [Header.Add]: one more value for the key. *)
Definition Add (h : t) (key value : string) : t :=
  <[CanonicalMIMEHeaderKey key := (Values h key ++ [value])%list]> h.

End Header.

(** ** Values of the program *)

(** A Go [error] is known here by its message, what [Error()] returns. *)
Definition error := string.

(** A Go result pair [(T, error)] of which callers read one side. *)
Inductive Result (A : Type) : Type :=
| Ok (a : A)
| Err (e : error).
Arguments Ok {A} a.
Arguments Err {A} e.

(** [context.Context]: the nil interface value, or a context. *)
Inductive Context : Type :=
| ctx_nil
| ctx_value (id : nat).

(** [context.TODO()]. *)
Definition context_TODO : Context := ctx_value 0.

(** [RecordType] is a named string type. *)
Definition RecordType := string.

Definition A : RecordType := "A".
Definition AAAA : RecordType := "AAAA".
Definition CAA : RecordType := "CAA".
Definition CNAME : RecordType := "CNAME".
Definition MX : RecordType := "MX".
Definition NS : RecordType := "NS".
Definition TXT : RecordType := "TXT".
Definition SRV : RecordType := "SRV".
Definition SSHFP : RecordType := "SSHFP".

Record SortOrder_t : Type := {
  ByCreated : Z;
  ByName : Z
}.

(** [DNSRecord]: the host data returned from the API. *)
Record DNSRecord : Type := {
  QualifiedName : string;
  RecordType_ : RecordType;
  SortOrder : SortOrder_t;
  Value : string;
  Zone : string
}.

(** [DNSZone] is a named string type. *)
Definition DNSZone := string.

(** [APIStatus]: the status returned from the API. *)
Record APIStatus : Type := {
  Status : string;
  Reason : string
}.

Definition MethodGet : string := "GET".
Definition MethodPost : string := "POST".
Definition MethodPut : string := "PUT".
Definition MethodDelete : string := "DELETE".

(** An [*http.Request] as far as the client fills it in.  [req_body] is
    [None] for a nil [io.Reader]. *)
Record Request : Type := {
  req_ctx : Context;
  req_method : string;
  req_url : string;
  req_header : Header.t;
  req_body : option string
}.

(** What [io.ReadAll(resp.Body)] gives. *)
Inductive ReadResult : Type :=
| ReadOk (body : string)
| ReadErr (e : error).

(** What [http.DefaultClient.Do] gives.  On an error the response is nil
    ([DoErrNil], a failure to speak HTTP such as a refused connection or a
    cancelled context), except when the redirect policy fails, where the
    response is there with its body closed ([DoErrResp]). *)
Inductive DoResult : Type :=
| DoResp (body : ReadResult)
| DoErrNil (e : error)
| DoErrResp (e : error).

(** The two places of the library that send a request: [doLogin] and
    [doRequest]. *)
Inductive Site : Type :=
| SiteLogin
| SiteRequest.

(** What the program does to the outside, in the order it does it. *)
Inductive Event : Type :=
| EvDo (site : Site) (req : Request) (reply : DoResult)
| EvStdout (text : string)
| EvStderr (text : string).

(** The state of the process: the package variable [apikey], and the
    events so far. *)
Record World : Type := {
  apikey : string;
  log : list Event
}.

(** The value of a panic raised by a nil pointer dereference. *)
Definition nil_dereference : string :=
  "runtime error: invalid memory address or nil pointer dereference".

(** ** The libraries and the network *)

(** What the program takes from outside its own source.  The two laws of
    [fmt_Sprintf0] are those of package [fmt]: text without ['%'] is written
    as it is, and a verb with no operand left is written as
    [%!verb(MISSING)]. *)
Class Platform : Type := {
  (** [*url.URL] with [url.Parse], [JoinPath] and [String]. *)
  URL : Type;
  url_Parse : string -> Result URL;
  url_JoinPath : URL -> list string -> URL;
  url_String : URL -> string;
  (** The error of [http.NewRequestWithContext] for a context, a method and
      a URL: a nil context, an invalid method, a URL that does not parse. *)
  http_NewRequest_error : Context -> string -> string -> option error;
  (** [http.DefaultClient.Do] followed by [io.ReadAll] of the body: the
      answer of the network to a request, after the events so far. *)
  http_RoundTrip : list Event -> Request -> DoResult;
  (** [time.Now()] after the events so far, in seconds. *)
  time_Now : list Event -> Z;
  (** [totp.GenerateCode]. *)
  totp_GenerateCode : string -> Z -> Result string;
  (** [gjson.Get(json, path).String()]. *)
  gjson_Get : string -> string -> string;
  (** [json.Unmarshal] into a [[]DNSRecord], a [[]DNSZone], an [APIStatus]. *)
  json_Unmarshal_records : string -> Result (list DNSRecord);
  json_Unmarshal_zones : string -> Result (list DNSZone);
  json_Unmarshal_status : string -> Result APIStatus;
  (** [fmt.Sprintf(format)], a format with no operands. *)
  fmt_Sprintf0 : string -> string;
  fmt_Sprintf0_plain :
    forall s, GoStrings.has_percent s = false -> fmt_Sprintf0 s = s;
  fmt_Sprintf0_missing :
    forall s, GoStrings.has_percent s = false ->
              fmt_Sprintf0 (s ++ "%d") = s ++ "%!d(MISSING)";
  (** What a [tabwriter] flushes for the lines written to it. *)
  tabwriter_Flush : list string -> string
}.

(** ** Go functions with effects *)

Inductive Outcome (T : Type) : Type :=
| Returned (v : T) (w : World)
| Panicked (p : string) (w : World).
Arguments Returned {T} v w.
Arguments Panicked {T} p w.

Definition Go (T : Type) : Type := World -> Outcome T.

Definition world_of {T} (o : Outcome T) : World :=
  match o with
  | Returned _ w => w
  | Panicked _ w => w
  end.

#[global] Instance Go_ret : MRet Go := fun T v w => Returned v w.

#[global] Instance Go_bind : MBind Go := fun T U f m w =>
  match m w with
  | Returned v w' => f v w'
  | Panicked p w' => Panicked p w'
  end.

(** [panic(v)]. *)
Definition panic {T} (p : string) : Go T := fun w => Panicked p w.

(** Reading and assigning the package variable [apikey]. *)
Definition read_apikey : Go string := fun w => Returned (apikey w) w.
Definition write_apikey (k : string) : Go unit :=
  fun w => Returned tt {| apikey := k; log := log w |}.

Definition emit (e : Event) : Go unit :=
  fun w => Returned tt {| apikey := apikey w; log := (log w ++ [e])%list |}.

(** [fmt.Println(s)] and [fmt.Print(s)] write to standard output. *)
Definition fmt_Println (s : string) : Go unit := emit (EvStdout (s ++ GoStrings.nl)).
Definition fmt_Print (s : string) : Go unit := emit (EvStdout s).

(** ** Package gomiabdns *)

Module gomiabdns.

Section Gomiabdns.

Context {P : Platform}.

(** [fmt.Errorf(format)] with no operands: the message is what [fmt] makes
    of the format. *)
Definition fmt_Errorf0 (format : string) : error := fmt_Sprintf0 format.

(** [http.NewRequestWithContext]: a request with an empty header, or the
    error.  An empty method means GET. *)
Definition http_NewRequestWithContext
    (ctx : Context) (method url : string) (body : option string) : Result Request :=
  match http_NewRequest_error ctx method url with
  | Some e => Err e
  | None =>
      Ok {| req_ctx := ctx;
            req_method := if String.eqb method "" then MethodGet else method;
            req_url := url;
            req_header := ∅;
            req_body := body |}
  end.

Definition Header_Set (req : Request) (key value : string) : Request :=
  {| req_ctx := req_ctx req; req_method := req_method req; req_url := req_url req;
     req_header := Header.Set_ (req_header req) key value;
     req_body := req_body req |}.

Definition Header_Add (req : Request) (key value : string) : Request :=
  {| req_ctx := req_ctx req; req_method := req_method req; req_url := req_url req;
     req_header := Header.Add (req_header req) key value;
     req_body := req_body req |}.

(** [http.DefaultClient.Do(req)] from one of the two sites, with the read
    of the body: the exchange goes to the log. *)
Definition http_Do (site : Site) (req : Request) : Go DoResult :=
  fun w =>
    let reply := http_RoundTrip (log w) req in
    Returned reply {| apikey := apikey w; log := (log w ++ [EvDo site req reply])%list |}.

(** [time.Now()]. *)
Definition time_Now_ : Go Z := fun w => Returned (time_Now (log w)) w.

(** [Client]: a target for the methods that talk to the DNS API. *)
Record Client : Type := {
  ApiUrl : URL;
  email : string;
  password : string;
  totp_secret : string
}.

(** [New] panics when the URL does not parse. *)
Definition New (apiUrl email password totp_secret : string) : Go Client :=
  match url_Parse apiUrl with
  | Err err => panic err
  | Ok parsedUrl =>
      mret {| ApiUrl := parsedUrl; email := email; password := password;
              totp_secret := totp_secret |}
  end.

(** [doLogin].  The request is built before the cached key is looked at;
    with a key cached the function returns nil there.  The deferred
    [resp.Body.Close()] is evaluated before [err] is tested: with a nil
    response it panics. *)
Definition doLogin (c : Client) (ctx : Context) : Go (option error) :=
  let requestURL := url_String (url_JoinPath (ApiUrl c) ["login"]) in
  match http_NewRequestWithContext ctx MethodPost requestURL None with
  | Err err => mret (Some err)
  | Ok req =>
      let req := Header_Set req "Accept" "JSON" in
      key ← read_apikey;
      if negb (String.eqb key "") then
        (* already logged in *)
        mret None
      else
        let req :=
          Header_Add req "Authorization"
            ("Basic " ++ Base64.EncodeToString (email c ++ ":" ++ password c)) in
        (* If totp secret is configured, use it to generate a totp token *)
        withToken ←
          (if negb (String.eqb (totp_secret c) "") then
             now ← time_Now_;
             match totp_GenerateCode (totp_secret c) now with
             | Err err =>
                 mret (Err (fmt_Errorf0 ("Error generating TOTP token: " ++ err)))
             | Ok token => mret (Ok (Header_Add req "x-auth-token" token))
             end
           else mret (Ok req));
        match withToken with
        | Err err => mret (Some err)
        | Ok req =>
            reply ← http_Do SiteLogin req;
            match reply with
            | DoErrNil _ => panic nil_dereference
            | DoErrResp err => mret (Some err)
            | DoResp (ReadErr err) => mret (Some err)
            | DoResp (ReadOk bodystr) =>
                let status := gjson_Get bodystr "status" in
                if String.eqb status "ok" then
                  let privileges := gjson_Get bodystr "privileges" in
                  if negb (GoStrings.Contains privileges "admin") then
                    mret (Some (fmt_Errorf0 "Account does not have admin priveleges"))
                  else
                    write_apikey (gjson_Get bodystr "api_key");;
                    mret None
                else if String.eqb status "invalid" then
                  write_apikey "";;
                  let reason := gjson_Get bodystr "reason" in
                  mret (Some (fmt_Errorf0 ("Invalid response: " ++ reason)))
                else
                  write_apikey "";;
                  mret (Some (fmt_Errorf0 ("Unforeseen return value: " ++ status)))
            end
        end
  end.

(** [doRequest]: log in, then send the request with the cached key. *)
Definition doRequest (c : Client) (ctx : Context) (method requestURL value : string)
    : Go (Result string) :=
  let r := if negb (String.eqb value "") then Some value else None in
  err ← doLogin c ctx;
  match err with
  | Some err => mret (Err (fmt_Errorf0 ("Could not login: " ++ err)))
  | None =>
      key ← read_apikey;
      if String.eqb key "" then mret (Err (fmt_Errorf0 "Could not login"))
      else
        match http_NewRequestWithContext ctx method requestURL r with
        | Err err => mret (Err err)
        | Ok req =>
            let req := Header_Set req "Accept" "json" in
            let req :=
              Header_Add req "Authorization"
                ("Basic " ++ Base64.EncodeToString (email c ++ ":" ++ key)) in
            reply ← http_Do SiteRequest req;
            match reply with
            | DoErrNil _ => panic nil_dereference
            | DoErrResp err => mret (Err err)
            | DoResp (ReadErr err) => mret (Err err)
            | DoResp (ReadOk body) => mret (Ok body)
            end
        end
  end.

Definition getApiWithPath (apiUrl : URL) (name : string) (rtype : RecordType) : URL :=
  let apiUrl := url_JoinPath apiUrl ["dns"; "custom"] in
  if negb (String.eqb name "") then
    if negb (String.eqb rtype "") then url_JoinPath apiUrl [name; rtype]
    else url_JoinPath apiUrl [name]
  else apiUrl.

Definition unmarshalRecords (data : string) : Result (list DNSRecord) :=
  match json_Unmarshal_records data with
  | Err err =>
      match json_Unmarshal_status data with
      | Err err2 => Err err
      | Ok errorResult =>
          Err (fmt_Errorf0 ("Error while decoding json: " ++ Reason errorResult))
      end
  | Ok result => Ok result
  end.

Definition unmarshalZones (data : string) : Result (list DNSZone) :=
  match json_Unmarshal_zones data with
  | Err err =>
      match json_Unmarshal_status data with
      | Err err2 => Err err
      | Ok errorResult =>
          Err (fmt_Errorf0 ("Error while decoding json: " ++ Reason errorResult))
      end
  | Ok result => Ok result
  end.

(** The error of [AddHost] and [UpdateHost] for a missing parameter:
    [fmt.Errorf] with the three strings as operands of [%s]. *)
Definition missingParameters (method name : string) (recordType : RecordType)
    (value : string) : error :=
  "Missing parameters to " ++ method ++ ". all are required. name: " ++ name
    ++ ", recordType: " ++ recordType ++ ", value: " ++ value ++ " ".

(** [GetHosts] returns the records at the path of [name] and [recordType]. *)
Definition GetHosts (c : Client) (ctx : Context) (name : string)
    (recordType : RecordType) : Go (Result (list DNSRecord)) :=
  let apiUrl := getApiWithPath (ApiUrl c) name recordType in
  apiResp ← doRequest c ctx MethodGet (url_String apiUrl) "";
  match apiResp with
  | Err err => mret (Err err)
  | Ok apiResp => mret (unmarshalRecords apiResp)
  end.

(** [AddHost] adds a record; name, recordType and value are all required. *)
Definition AddHost (c : Client) (ctx : Context) (name : string)
    (recordType : RecordType) (value : string) : Go (option error) :=
  if String.eqb name "" || String.eqb recordType "" || String.eqb value "" then
    mret (Some (missingParameters "AddHost" name recordType value))
  else
    let apiUrl := getApiWithPath (ApiUrl c) name recordType in
    apiResp ← doRequest c ctx MethodPost (url_String apiUrl) value;
    match apiResp with
    | Err err => mret (Some err)
    | Ok apiResp => fmt_Println apiResp;; mret None
    end.

(** [UpdateHost] creates or replaces the record of name and recordType. *)
Definition UpdateHost (c : Client) (ctx : Context) (name : string)
    (recordType : RecordType) (value : string) : Go (option error) :=
  if String.eqb name "" || String.eqb recordType "" || String.eqb value "" then
    mret (Some (missingParameters "UpdateHost" name recordType value))
  else
    let apiUrl := getApiWithPath (ApiUrl c) name recordType in
    apiResp ← doRequest c ctx MethodPut (url_String apiUrl) value;
    match apiResp with
    | Err err => mret (Some err)
    | Ok apiResp => fmt_Println apiResp;; mret None
    end.

(** [DeleteHost] deletes the records that match; only the name is required. *)
Definition DeleteHost (c : Client) (ctx : Context) (name : string)
    (recordType : RecordType) (value : string) : Go (option error) :=
  if String.eqb name "" then
    mret (Some ("Missing parameter to DeleteHost. Name is required. name: " ++ name))
  else
    let apiUrl := getApiWithPath (ApiUrl c) name recordType in
    apiResp ← doRequest c ctx MethodDelete (url_String apiUrl) value;
    match apiResp with
    | Err err => mret (Some err)
    | Ok apiResp => fmt_Println apiResp;; mret None
    end.

(** [GetZones] returns the zones the box is responsible for. *)
Definition GetZones (c : Client) (ctx : Context) : Go (Result (list DNSZone)) :=
  let apiUrl := url_JoinPath (ApiUrl c) ["dns"; "zones"] in
  apiResp ← doRequest c ctx MethodGet (url_String apiUrl) "";
  match apiResp with
  | Err err => mret (Err err)
  | Ok apiResp => mret (unmarshalZones apiResp)
  end.

(** [GetZonefile] returns the zone file of a zone, as the server sent it. *)
Definition GetZonefile (c : Client) (ctx : Context) (zone : string) : Go (Result string) :=
  let apiUrl := url_JoinPath (ApiUrl c) ["dns"; "zonefile"; zone] in
  apiResp ← doRequest c ctx MethodGet (url_String apiUrl) "";
  match apiResp with
  | Err err => mret (Err err)
  | Ok apiResp => mret (Ok apiResp)
  end.

(** *** Calls of the public methods, as data *)

Inductive Call : Type :=
| CallGetHosts (name : string) (recordType : RecordType)
| CallAddHost (name : string) (recordType : RecordType) (value : string)
| CallUpdateHost (name : string) (recordType : RecordType) (value : string)
| CallDeleteHost (name : string) (recordType : RecordType) (value : string)
| CallGetZones
| CallGetZonefile (zone : string).

(** The error a call ends with, nil ([None]) when it succeeds. *)
Definition error_of {T} (r : Result T) : option error :=
  match r with
  | Ok _ => None
  | Err e => Some e
  end.

Definition invoke (c : Client) (ctx : Context) (call : Call) : Go (option error) :=
  match call with
  | CallGetHosts name recordType => r ← GetHosts c ctx name recordType; mret (error_of r)
  | CallAddHost name recordType value => AddHost c ctx name recordType value
  | CallUpdateHost name recordType value => UpdateHost c ctx name recordType value
  | CallDeleteHost name recordType value => DeleteHost c ctx name recordType value
  | CallGetZones => r ← GetZones c ctx; mret (error_of r)
  | CallGetZonefile zone => r ← GetZonefile c ctx zone; mret (error_of r)
  end.

(** The check of the parameters a method makes before anything else: the
    error it returns there. *)
Definition rejected (call : Call) : option error :=
  match call with
  | CallAddHost name recordType value =>
      if String.eqb name "" || String.eqb recordType "" || String.eqb value ""
      then Some (missingParameters "AddHost" name recordType value) else None
  | CallUpdateHost name recordType value =>
      if String.eqb name "" || String.eqb recordType "" || String.eqb value ""
      then Some (missingParameters "UpdateHost" name recordType value) else None
  | CallDeleteHost name _ _ =>
      if String.eqb name ""
      then Some ("Missing parameter to DeleteHost. Name is required. name: " ++ name)
      else None
  | _ => None
  end.

(** A program that makes one call after the other, each with its client
    and context, whatever the calls return; a panic ends it. *)
Fixpoint invoke_all (calls : list (Client * Context * Call)) : Go unit :=
  match calls with
  | [] => mret tt
  | (c, ctx, call) :: rest => invoke c ctx call;; invoke_all rest
  end.

(** The requests [doLogin] sent, among some events. *)
Definition is_login (e : Event) : bool :=
  match e with
  | EvDo SiteLogin _ _ => true
  | _ => false
  end.

Definition login_calls (events : list Event) : nat :=
  List.length (List.filter is_login events).

(** *** The vocabulary of the properties *)

(** The URL [doLogin] posts to. *)
Definition loginURL (c : Client) : string :=
  url_String (url_JoinPath (ApiUrl c) ["login"]).

(** [w'] comes after [w] with the same key and no login exchange between. *)
Definition quiet (w w' : World) : Prop :=
  apikey w' = apikey w /\
  exists evs, log w' = (log w ++ evs)%list /\ login_calls evs = 0.

(** The request [doLogin] sends, with the token when one is configured. *)
Definition login_request (c : Client) (ctx : Context) (token : option string) : Request :=
  let req :=
    Header_Add
      (Header_Set
         {| req_ctx := ctx; req_method := MethodPost; req_url := loginURL c;
            req_header := ∅; req_body := None |}
         "Accept" "JSON")
      "Authorization"
      ("Basic " ++ Base64.EncodeToString (email c ++ ":" ++ password c)) in
  match token with
  | Some token => Header_Add req "x-auth-token" token
  | None => req
  end.

(** Whether [doLogin] gets as far as the network from a world, and with
    which request. *)
Definition login_attempt (c : Client) (ctx : Context) (w : World) : option Request :=
  match http_NewRequest_error ctx MethodPost (loginURL c) with
  | Some _ => None
  | None =>
      if negb (String.eqb (apikey w) "") then None
      else if negb (String.eqb (totp_secret c) "") then
        match totp_GenerateCode (totp_secret c) (time_Now (log w)) with
        | Err _ => None
        | Ok token => Some (login_request c ctx (Some token))
        end
      else Some (login_request c ctx None)
  end.

(** The header of a request of [doRequest] made with the key [k]. *)
Definition request_header (c : Client) (k : string) : Header.t :=
  <["Authorization" := ["Basic " ++ Base64.EncodeToString (email c ++ ":" ++ k)]]>
    (<["Accept" := ["json"]]> ∅).

(** The request [doRequest] sends, when it sends one. *)
Definition sent_request (c : Client) (ctx : Context) (method requestURL value k : string)
    : Request :=
  {| req_ctx := ctx;
     req_method := if String.eqb method "" then MethodGet else method;
     req_url := requestURL;
     req_header := request_header c k;
     req_body := if negb (String.eqb value "") then Some value else None |}.

(** The method, URL and body a call gives to [doRequest]. *)
Definition request_of (c : Client) (call : Call) : string * string * string :=
  match call with
  | CallGetHosts name recordType =>
      (MethodGet, url_String (getApiWithPath (ApiUrl c) name recordType), "")
  | CallAddHost name recordType value =>
      (MethodPost, url_String (getApiWithPath (ApiUrl c) name recordType), value)
  | CallUpdateHost name recordType value =>
      (MethodPut, url_String (getApiWithPath (ApiUrl c) name recordType), value)
  | CallDeleteHost name recordType value =>
      (MethodDelete, url_String (getApiWithPath (ApiUrl c) name recordType), value)
  | CallGetZones => (MethodGet, url_String (url_JoinPath (ApiUrl c) ["dns"; "zones"]), "")
  | CallGetZonefile zone =>
      (MethodGet, url_String (url_JoinPath (ApiUrl c) ["dns"; "zonefile"; zone]), "")
  end.

End Gomiabdns.

End gomiabdns.

(** ** Command miabdns *)

Module miabdns.

Import gomiabdns.

(** The package variables that [flag.Parse] fills in [init]. *)
Record Flags : Type := {
  email : string;
  password : string;
  url : string;
  totp : string;
  command : string;
  recordType : string;
  recordName : string;
  recordValue : string;
  zone : string
}.

Definition commands : list string :=
  ["list"; "add"; "update"; "delete"; "zones"; "zonefile"].

Definition tab : string := String (ascii_of_nat 9) EmptyString.

(** What went to standard output and to standard error. *)
Fixpoint stdout_of (events : list Event) : string :=
  match events with
  | [] => ""
  | EvStdout s :: rest => s ++ stdout_of rest
  | _ :: rest => stdout_of rest
  end.

Fixpoint stderr_of (events : list Event) : string :=
  match events with
  | [] => ""
  | EvStderr s :: rest => s ++ stderr_of rest
  | _ :: rest => stderr_of rest
  end.

Section Miabdns.

Context {P : Platform}.

Definition getRecords (f : Flags) (c : Client) : Go (Result (list DNSRecord)) :=
  r ← GetHosts c context_TODO (recordName f) (recordType f);
  match r with
  | Err err => mret (Err err)
  | Ok records => mret (Ok records)
  end.

Definition addRecord (f : Flags) (c : Client) : Go (option error) :=
  if String.eqb (recordName f) "" || String.eqb (recordType f) ""
     || String.eqb (recordValue f) "" then
    mret (Some ("Missing parameters to add command. all are required. rname: "
                  ++ recordName f ++ ", rtype: " ++ recordType f
                  ++ ", rvalue: " ++ recordValue f ++ " "))
  else
    err ← AddHost c context_TODO (recordName f) (recordType f) (recordValue f);
    match err with
    | Some err => mret (Some err)
    | None => mret None
    end.

Definition updateRecord (f : Flags) (c : Client) : Go (option error) :=
  if String.eqb (recordName f) "" || String.eqb (recordType f) ""
     || String.eqb (recordValue f) "" then
    mret (Some ("Missing parameters to update command. all are required. rname: "
                  ++ recordName f ++ ", rtype: " ++ recordType f
                  ++ ", rvalue: " ++ recordValue f ++ " "))
  else
    err ← UpdateHost c context_TODO (recordName f) (recordType f) (recordValue f);
    match err with
    | Some err => mret (Some err)
    | None => mret None
    end.

Definition deleteRecord (f : Flags) (c : Client) : Go (option error) :=
  if String.eqb (recordName f) "" || String.eqb (recordType f) "" then
    mret (Some (fmt_Errorf0
                  "Missing parameters to delete command. rname and rtype are required."))
  else
    err ← DeleteHost c context_TODO (recordName f) (recordType f) (recordValue f);
    match err with
    | Some err => mret (Some err)
    | None => mret None
    end.

(** The lines go through a [tabwriter] to standard output (a failing write
    to standard output is left out). *)
Definition printRecords (records : list DNSRecord) : Go unit :=
  fmt_Print
    (tabwriter_Flush
       (("Name" ++ tab ++ " Type" ++ tab ++ " Value" ++ GoStrings.nl)
          :: map (fun dr => QualifiedName dr ++ tab ++ " " ++ RecordType_ dr ++ tab
                              ++ " " ++ Value dr ++ GoStrings.nl) records)).

Definition getZones (c : Client) : Go (Result (list DNSZone)) :=
  r ← GetZones c context_TODO;
  match r with
  | Err err => mret (Err err)
  | Ok records => mret (Ok records)
  end.

Fixpoint printZones (zones : list DNSZone) : Go unit :=
  match zones with
  | [] => mret tt
  | dz :: rest => fmt_Println ("Zone: " ++ dz);; printZones rest
  end.

Definition getZonefile (c : Client) (zone : string) : Go (Result string) :=
  r ← GetZonefile c context_TODO zone;
  match r with
  | Err err => mret (Err err)
  | Ok zonefile => mret (Ok zonefile)
  end.

(** The zone file is the format of [fmt.Printf]. *)
Definition printZonefile (zonefile zone : string) : Go unit :=
  fmt_Println ("Zonefile for zone: " ++ zone);;
  fmt_Print (fmt_Sprintf0 zonefile).

(** [main], after [init] parsed the flags. *)
Definition main (f : Flags) : Go unit :=
  let command := if String.eqb (command f) "" then "list" else command f in
  if negb (GoStrings.slices_Contains commands command) then
    fmt_Println ("The command argument must be a valid command: "
                   ++ GoStrings.Join commands ",")
  else
    c ← New (url f) (email f) (password f) (totp f);
    if String.eqb command "list" then
      r ← getRecords f c;
      match r with
      | Err err => panic err
      | Ok records => printRecords records
      end
    else if String.eqb command "add" then
      err ← addRecord f c;
      match err with
      | Some err => panic err
      | None => fmt_Println "record added"
      end
    else if String.eqb command "update" then
      err ← updateRecord f c;
      match err with
      | Some err => panic err
      | None => fmt_Println "record updated"
      end
    else if String.eqb command "delete" then
      err ← deleteRecord f c;
      match err with
      | Some err => panic err
      | None => fmt_Println "record deleted"
      end
    else if String.eqb command "zones" then
      r ← getZones c;
      match r with
      | Err err => panic err
      | Ok zones => printZones zones
      end
    else if String.eqb command "zonefile" then
      if String.eqb (zone f) "" then
        panic (fmt_Errorf0 "Zone for which to retrieve the zonefile must be provided")
      else
        r ← getZonefile c (zone f);
        match r with
        | Err err => panic err
        | Ok zonefile => printZonefile zonefile (zone f)
        end
    else mret tt.

(** How the process ends. *)
Record Exit : Type := {
  exit_status : Z;
  exit_world : World
}.

(** The Go runtime around [main]: a return from [main] is exit status 0; a
    panic that nothing recovers is reported on standard error (the stack
    trace that follows the first line is left out) with exit status 2. *)
Definition run (f : Flags) (w : World) : Exit :=
  match main f w with
  | Returned _ w' => {| exit_status := 0; exit_world := w' |}
  | Panicked p w' =>
      {| exit_status := 2;
         exit_world :=
           {| apikey := apikey w';
              log := (log w' ++ [EvStderr ("panic: " ++ p ++ GoStrings.nl)])%list |} |}
  end.

(** The line [main] prints for a command it does not know. *)
Definition usage : string :=
  "The command argument must be a valid command: list,add,update,delete,zones,zonefile".

(** C9 as the specification has it: an unknown command ends the process
    with a status other than 0 and with text on standard error. *)
Definition reports_usage_error (f : Flags) (w : World) : Prop :=
  exit_status (run f w) <> 0%Z /\
  stderr_of (log (exit_world (run f w))) <> "".

End Miabdns.

End miabdns.

(** ** A platform to run the program on

    A small instance of [Platform]: URLs are their text and joining appends
    the elements, the formatter knows plain text, [%%] and a verb without
    operand, and one box answers the requests.  The box knows an
    administrator, a user without privileges, and refuses everybody else;
    a host named [down] refuses connections. *)

Module Demo.

Import GoStrings.

Definition dq : string := String (ascii_of_nat 34) EmptyString.

(** A JSON string, a JSON member. *)
Definition quoted (s : string) : string := dq ++ s ++ dq.
Definition member (key value : string) : string := quoted key ++ ":" ++ value.

Fixpoint drop_bytes (n : nat) (s : string) : string :=
  match n, s with
  | S n', String _ s' => drop_bytes n' s'
  | _, _ => s
  end.

(** The text after the first occurrence of [key]. *)
Fixpoint after (key s : string) : option string :=
  if HasPrefix s key then Some (drop_bytes (String.length key) s)
  else match s with
       | EmptyString => None
       | String _ s' => after key s'
       end.

(** The text before the first [stop]. *)
Fixpoint before (stop : ascii) (s : string) : string :=
  match s with
  | EmptyString => ""
  | String c s' => if Ascii.eqb c stop then "" else String c (before stop s')
  end.

(** The string at a key of a flat object; an array is given as its text. *)
Definition get (json path : string) : string :=
  match after (quoted path ++ ":") json with
  | Some (String c rest) =>
      if Ascii.eqb c (ascii_of_nat 34) then before (ascii_of_nat 34) rest
      else if Ascii.eqb c "[" then String c (before "]" rest) ++ "]"
      else ""
  | _ => ""
  end.

Fixpoint Sprintf0 (format : string) : string :=
  match format with
  | EmptyString => ""
  | String c rest =>
      if Ascii.eqb c "%" then
        match rest with
        | EmptyString => "%!(NOVERB)"
        | String verb rest' =>
            (if Ascii.eqb verb "%" then "%"
             else "%!" ++ String verb "(MISSING)") ++ Sprintf0 rest'
        end
      else String c (Sprintf0 rest)
  end.

Definition parse (s : string) : Result string :=
  if Contains s " " then Err ("parse " ++ quoted s ++ ": invalid character in URL")
  else Ok s.

Definition joinPath (u : string) (elem : list string) : string :=
  u ++ "/" ++ Join elem "/".

Definition newRequest_error (ctx : Context) (method url : string) : option error :=
  match ctx with
  | ctx_nil => Some "net/http: nil Context"
  | ctx_value _ =>
      match parse url with
      | Err e => Some e
      | Ok _ => None
      end
  end.

Definition basic (user pass : string) : list string :=
  ["Basic " ++ Base64.EncodeToString (user ++ ":" ++ pass)].

(** The answers of the box. *)
Definition box (history : list Event) (req : Request) : DoResult :=
  if HasPrefix (req_url req) "https://down" then
    DoErrNil "dial tcp: connect: connection refused"
  else if String.eqb (req_url req) "https://box.example.com/admin/login" then
    let auth := Header.Values (req_header req) "Authorization" in
    if decide (auth = basic "admin@example.com" "secret") then
      DoResp (ReadOk ("{" ++ member "status" (quoted "ok") ++ ","
                          ++ member "privileges" ("[" ++ quoted "admin" ++ "]") ++ ","
                          ++ member "api_key" (quoted "k3y") ++ "}"))
    else if decide (auth = basic "user@example.com" "secret") then
      DoResp (ReadOk ("{" ++ member "status" (quoted "ok") ++ ","
                          ++ member "privileges" "[]" ++ ","
                          ++ member "api_key" (quoted "u5r") ++ "}"))
    else if decide (auth = basic "noisy@example.com" "secret") then
      DoResp (ReadOk ("{" ++ member "status" (quoted "invalid") ++ ","
                          ++ member "reason" (quoted "lockout at 100%d") ++ "}"))
    else if decide (auth = basic "slow@example.com" "secret") then
      DoResp (ReadErr "unexpected EOF")
    else
      DoResp (ReadOk ("{" ++ member "status" (quoted "invalid") ++ ","
                          ++ member "reason" (quoted "Incorrect email address or password.")
                          ++ "}"))
  else DoResp (ReadOk "[]").

Definition unmarshal_status (data : string) : Result APIStatus :=
  if HasPrefix data "{" then
    Ok {| Status := get data "status"; Reason := get data "reason" |}
  else Err "json: cannot unmarshal array into Go value of type gomiabdns.APIStatus".

Definition unmarshal_records (data : string) : Result (list DNSRecord) :=
  if String.eqb data "[]" then Ok []
  else Err "json: cannot unmarshal object into Go value of type []gomiabdns.DNSRecord".

Definition unmarshal_zones (data : string) : Result (list DNSZone) :=
  if String.eqb data "[]" then Ok []
  else Err "json: cannot unmarshal object into Go value of type []gomiabdns.DNSZone".

Definition generateCode (secret : string) (now : Z) : Result string :=
  if Contains secret "!" then Err "Decoding of secret as base32 failed."
  else Ok "123456".

Lemma Sprintf0_plain s : has_percent s = false -> Sprintf0 s = s.
Proof.
  induction s as [|c s IH]; simpl; [reflexivity|].
  destruct (Ascii.eqb c "%"); simpl; [discriminate|].
  intros H. rewrite IH; auto.
Qed.

Lemma Sprintf0_missing s :
  has_percent s = false -> Sprintf0 (s ++ "%d") = s ++ "%!d(MISSING)".
Proof.
  induction s as [|c s IH]; simpl; [reflexivity|].
  destruct (Ascii.eqb c "%"); simpl; [discriminate|].
  intros H. rewrite IH; auto.
Qed.

Definition platform : Platform := {|
  URL := string;
  url_Parse := parse;
  url_JoinPath := joinPath;
  url_String := fun u => u;
  http_NewRequest_error := newRequest_error;
  http_RoundTrip := box;
  time_Now := fun history => (1700000000 + Z.of_nat (List.length history))%Z;
  totp_GenerateCode := generateCode;
  gjson_Get := get;
  json_Unmarshal_records := unmarshal_records;
  json_Unmarshal_zones := unmarshal_zones;
  json_Unmarshal_status := unmarshal_status;
  fmt_Sprintf0 := Sprintf0;
  fmt_Sprintf0_plain := Sprintf0_plain;
  fmt_Sprintf0_missing := Sprintf0_missing;
  tabwriter_Flush := fun lines => String.concat "" lines
|}.

End Demo.

(** ** Clients, worlds and answers on that box *)

Module Box.

Import gomiabdns miabdns.

Definition ctx : Context := context_TODO.

Definition fresh : World := {| apikey := ""; log := [] |}.

Definition client (url user : string) : @Client Demo.platform :=
  {| ApiUrl := url : @URL Demo.platform;
     gomiabdns.email := user;
     gomiabdns.password := "secret";
     totp_secret := "" |}.

Definition admin := client "https://box.example.com/admin" "admin@example.com".
Definition user := client "https://box.example.com/admin" "user@example.com".
Definition noisy := client "https://box.example.com/admin" "noisy@example.com".
Definition cut_off := client "https://down.example.com/admin" "admin@example.com".

(** The world after the administrator listed the zones. *)
Definition logged_in : World := world_of (GetZones admin ctx fresh).

Definition admin_answer : string :=
  "{" ++ Demo.member "status" (Demo.quoted "ok") ++ ","
      ++ Demo.member "privileges" ("[" ++ Demo.quoted "admin" ++ "]") ++ ","
      ++ Demo.member "api_key" (Demo.quoted "k3y") ++ "}".

Definition user_answer : string :=
  "{" ++ Demo.member "status" (Demo.quoted "ok") ++ ","
      ++ Demo.member "privileges" "[]" ++ ","
      ++ Demo.member "api_key" (Demo.quoted "u5r") ++ "}".

Definition noisy_answer : string :=
  "{" ++ Demo.member "status" (Demo.quoted "invalid") ++ ","
      ++ Demo.member "reason" (Demo.quoted "lockout at 100%d") ++ "}".

Definition refused : error := "dial tcp: connect: connection refused".

Definition bogus : Flags :=
  {| email := "admin@example.com"; password := "secret";
     url := "https://box.example.com/admin"; totp := "";
     command := "bogus"; recordType := ""; recordName := ""; recordValue := "";
     zone := "" |}.

(** A call sends no login request. *)
Definition skips_login (c : @Client Demo.platform) (call : Call) (w : World) : Prop :=
  login_calls (log (world_of (invoke c ctx call w))) = login_calls (log w).

End Box.

(** ** More vocabulary: the outcome of a request, the calls of the command *)

Section Outcomes.

Context {P : Platform}.

Import gomiabdns.

(** What [doRequest] returns for the reply to the request it sent, in the
    world with that exchange. *)
Definition request_outcome (reply : DoResult) (w : World) : Outcome (Result string) :=
  match reply with
  | DoResp (ReadOk body) => Returned (Ok body) w
  | DoResp (ReadErr err) => Returned (Err err) w
  | DoErrResp err => Returned (Err err) w
  | DoErrNil _ => Panicked nil_dereference w
  end.

(** The methods that print the answer of the server. *)
Definition is_write (call : Call) : bool :=
  match call with
  | CallAddHost _ _ _ | CallUpdateHost _ _ _ | CallDeleteHost _ _ _ => true
  | _ => false
  end.

(** The error a method has for the body of the answer: the error of the
    decoding for the two methods that decode. *)
Definition decode_error (call : Call) (body : string) : option error :=
  match call with
  | CallGetHosts _ _ => error_of (unmarshalRecords body)
  | CallGetZones => error_of (unmarshalZones body)
  | _ => None
  end.

(** The requests [doRequest] sent, among some events. *)
Definition is_request (e : Event) : bool :=
  match e with
  | EvDo SiteRequest _ _ => true
  | _ => false
  end.

Definition request_calls (events : list Event) : nat :=
  List.length (List.filter is_request events).

(** The command [main] runs: [list] for an empty one. *)
Definition effective_command (f : miabdns.Flags) : string :=
  if String.eqb (miabdns.command f) "" then "list" else miabdns.command f.

(** The client [main] makes from the flags and the parsed URL. *)
Definition cli_client (f : miabdns.Flags) (u : URL) : Client :=
  {| ApiUrl := u; email := miabdns.email f; password := miabdns.password f;
     totp_secret := miabdns.totp f |}.

(** The call of the library a command makes once the command's own check
    of the flags has passed; [None] when that check fails or the command is
    not known. *)
Definition cli_call (f : miabdns.Flags) : option Call :=
  let command := effective_command f in
  let name := miabdns.recordName f in
  let type := miabdns.recordType f in
  let value := miabdns.recordValue f in
  if String.eqb command "list" then Some (CallGetHosts name type)
  else if String.eqb command "add" then
    if String.eqb name "" || String.eqb type "" || String.eqb value "" then None
    else Some (CallAddHost name type value)
  else if String.eqb command "update" then
    if String.eqb name "" || String.eqb type "" || String.eqb value "" then None
    else Some (CallUpdateHost name type value)
  else if String.eqb command "delete" then
    if String.eqb name "" || String.eqb type "" then None
    else Some (CallDeleteHost name type value)
  else if String.eqb command "zones" then Some CallGetZones
  else if String.eqb command "zonefile" then
    if String.eqb (miabdns.zone f) "" then None
    else Some (CallGetZonefile (miabdns.zone f))
  else None.

(** The process after a panic with the value [p] in the world [w]. *)
Definition crashed (p : string) (w : World) : miabdns.Exit :=
  {| miabdns.exit_status := 2;
     miabdns.exit_world :=
       {| apikey := apikey w;
          log := (log w ++ [EvStderr ("panic: " ++ p ++ GoStrings.nl)])%list |} |}.

End Outcomes.

(** ** The earlier version of the package, and of the command

    The repository keeps the first version of both: a client with the
    credentials in the URL and no login, and a command with four commands. *)

Module gomiabdns_v0.

Section Gomiabdns_v0.

Context {P : Platform}.

(** [u.User = url.UserPassword(email, password)]: the URL with that user. *)
Variable url_SetUser : URL -> string -> string -> URL.

Record Client : Type := {
  ApiUrl : URL
}.

(** [New] assigns the user before it looks at the error of [url.Parse]:
    with an error the URL is nil and the assignment panics. *)
Definition New (apiUrl email password : string) : Go Client :=
  match url_Parse apiUrl with
  | Err _ => panic nil_dereference
  | Ok parsedUrl => mret {| ApiUrl := url_SetUser parsedUrl email password |}
  end.

(** [doRequest] sends the request as it is built; the error of the round
    trip is tested before the body is touched. *)
Definition doRequest (ctx : Context) (method requestURL value : string)
    : Go (Result string) :=
  let r := if negb (String.eqb value "") then Some value else None in
  match gomiabdns.http_NewRequestWithContext ctx method requestURL r with
  | Err err => mret (Err err)
  | Ok req =>
      reply ← gomiabdns.http_Do SiteRequest req;
      match reply with
      | DoErrNil err => mret (Err err)
      | DoErrResp err => mret (Err err)
      | DoResp (ReadErr err) => mret (Err err)
      | DoResp (ReadOk body) => mret (Ok body)
      end
  end.

Definition getApiWithPath (apiUrl : URL) (name : string) (rtype : RecordType) : URL :=
  if negb (String.eqb name "") then
    if negb (String.eqb rtype "") then url_JoinPath apiUrl [name; rtype]
    else url_JoinPath apiUrl [name]
  else apiUrl.

Definition unmarshalRecords (data : string) : Result (list DNSRecord) :=
  match json_Unmarshal_records data with
  | Err err => Err err
  | Ok result => Ok result
  end.

Definition GetHosts (c : Client) (ctx : Context) (name : string)
    (recordType : RecordType) : Go (Result (list DNSRecord)) :=
  let apiUrl := getApiWithPath (ApiUrl c) name recordType in
  apiResp ← doRequest ctx MethodGet (url_String apiUrl) "";
  match apiResp with
  | Err err => mret (Err err)
  | Ok apiResp => mret (unmarshalRecords apiResp)
  end.

Definition AddHost (c : Client) (ctx : Context) (name : string)
    (recordType : RecordType) (value : string) : Go (option error) :=
  if String.eqb name "" || String.eqb recordType "" || String.eqb value "" then
    mret (Some (gomiabdns.missingParameters "AddHost" name recordType value))
  else
    let apiUrl := getApiWithPath (ApiUrl c) name recordType in
    apiResp ← doRequest ctx MethodPost (url_String apiUrl) value;
    match apiResp with
    | Err err => mret (Some err)
    | Ok apiResp => fmt_Println apiResp;; mret None
    end.

Definition UpdateHost (c : Client) (ctx : Context) (name : string)
    (recordType : RecordType) (value : string) : Go (option error) :=
  if String.eqb name "" || String.eqb recordType "" || String.eqb value "" then
    mret (Some (gomiabdns.missingParameters "UpdateHost" name recordType value))
  else
    let apiUrl := getApiWithPath (ApiUrl c) name recordType in
    apiResp ← doRequest ctx MethodPut (url_String apiUrl) value;
    match apiResp with
    | Err err => mret (Some err)
    | Ok apiResp => fmt_Println apiResp;; mret None
    end.

Definition DeleteHost (c : Client) (ctx : Context) (name : string)
    (recordType : RecordType) (value : string) : Go (option error) :=
  if String.eqb name "" then
    mret (Some ("Missing parameter to DeleteHost. Name is required. name: " ++ name))
  else
    let apiUrl := getApiWithPath (ApiUrl c) name recordType in
    apiResp ← doRequest ctx MethodDelete (url_String apiUrl) value;
    match apiResp with
    | Err err => mret (Some err)
    | Ok apiResp => fmt_Println apiResp;; mret None
    end.

End Gomiabdns_v0.

End gomiabdns_v0.

Module miabdns_v0.

Import gomiabdns_v0.

Record Flags : Type := {
  email : string;
  password : string;
  url : string;
  command : string;
  recordType : string;
  recordName : string;
  recordValue : string
}.

Definition commands : list string := ["list"; "add"; "update"; "delete"].

Section Miabdns_v0.

Context {P : Platform}.

Variable url_SetUser : URL -> string -> string -> URL.

Definition getRecords (f : Flags) (c : Client) : Go (Result (list DNSRecord)) :=
  r ← GetHosts c context_TODO (recordName f) (recordType f);
  match r with
  | Err err => mret (Err err)
  | Ok records => mret (Ok records)
  end.

Definition addRecord (f : Flags) (c : Client) : Go (option error) :=
  if String.eqb (recordName f) "" || String.eqb (recordType f) ""
     || String.eqb (recordValue f) "" then
    mret (Some ("Missing parameters to add command. all are required. rname: "
                  ++ recordName f ++ ", rtype: " ++ recordType f
                  ++ ", rvalue: " ++ recordValue f ++ " "))
  else
    err ← AddHost c context_TODO (recordName f) (recordType f) (recordValue f);
    match err with
    | Some err => mret (Some err)
    | None => mret None
    end.

Definition updateRecord (f : Flags) (c : Client) : Go (option error) :=
  if String.eqb (recordName f) "" || String.eqb (recordType f) ""
     || String.eqb (recordValue f) "" then
    mret (Some ("Missing parameters to update command. all are required. rname: "
                  ++ recordName f ++ ", rtype: " ++ recordType f
                  ++ ", rvalue: " ++ recordValue f ++ " "))
  else
    err ← UpdateHost c context_TODO (recordName f) (recordType f) (recordValue f);
    match err with
    | Some err => mret (Some err)
    | None => mret None
    end.

Definition deleteRecord (f : Flags) (c : Client) : Go (option error) :=
  if String.eqb (recordName f) "" || String.eqb (recordType f) "" then
    mret (Some (gomiabdns.fmt_Errorf0
                  "Missing parameters to delete command. rname and rtype are required."))
  else
    err ← DeleteHost c context_TODO (recordName f) (recordType f) (recordValue f);
    match err with
    | Some err => mret (Some err)
    | None => mret None
    end.

(** [main], after [init] parsed the flags. *)
Definition main (f : Flags) : Go unit :=
  let command := if String.eqb (command f) "" then "list" else command f in
  if negb (GoStrings.slices_Contains commands command) then
    fmt_Println ("The command argument must be a valid command: "
                   ++ GoStrings.Join commands ",")
  else
    c ← New url_SetUser (url f) (email f) (password f);
    if String.eqb command "list" then
      r ← getRecords f c;
      match r with
      | Err err => panic err
      | Ok records => miabdns.printRecords records
      end
    else if String.eqb command "add" then
      err ← addRecord f c;
      match err with
      | Some err => panic err
      | None => fmt_Println "record added"
      end
    else if String.eqb command "update" then
      err ← updateRecord f c;
      match err with
      | Some err => panic err
      | None => fmt_Println "record updated"
      end
    else if String.eqb command "delete" then
      err ← deleteRecord f c;
      match err with
      | Some err => panic err
      | None => fmt_Println "record deleted"
      end
    else mret tt.

(** The Go runtime around [main], as for the later command. *)
Definition run (f : Flags) (w : World) : miabdns.Exit :=
  match main f w with
  | Returned _ w' => {| miabdns.exit_status := 0; miabdns.exit_world := w' |}
  | Panicked p w' => crashed p w'
  end.

End Miabdns_v0.

End miabdns_v0.

(** ** A second box, and more clients and flags

    The second box answers every login with the status [ok] and the
    privilege [admin] but without a key. *)

Module Box2.

Import gomiabdns.

Definition keyless_answer : string :=
  "{" ++ Demo.member "status" (Demo.quoted "ok") ++ ","
      ++ Demo.member "privileges" ("[" ++ Demo.quoted "admin" ++ "]") ++ "}".

Definition keyless_box (history : list Event) (req : Request) : DoResult :=
  DoResp (ReadOk keyless_answer).

Definition keyless_platform : Platform := {|
  URL := string;
  url_Parse := Demo.parse;
  url_JoinPath := Demo.joinPath;
  url_String := fun u => u;
  http_NewRequest_error := Demo.newRequest_error;
  http_RoundTrip := keyless_box;
  time_Now := fun history => (1700000000 + Z.of_nat (List.length history))%Z;
  totp_GenerateCode := Demo.generateCode;
  gjson_Get := Demo.get;
  json_Unmarshal_records := Demo.unmarshal_records;
  json_Unmarshal_zones := Demo.unmarshal_zones;
  json_Unmarshal_status := Demo.unmarshal_status;
  fmt_Sprintf0 := Demo.Sprintf0;
  fmt_Sprintf0_plain := Demo.Sprintf0_plain;
  fmt_Sprintf0_missing := Demo.Sprintf0_missing;
  tabwriter_Flush := fun lines => String.concat "" lines
|}.

(** A client of the second box. *)
Definition keyless : @Client keyless_platform :=
  {| ApiUrl := "https://box.example.com/admin" : @URL keyless_platform;
     email := "admin@example.com"; password := "secret"; totp_secret := "" |}.

(** On the first box: a client of a host that answers the login with an
    empty list, and clients with a TOTP secret, a good and a bad one. *)
Definition stranger : @Client Demo.platform :=
  Box.client "https://other.example.com/admin" "admin@example.com".

Definition with_secret (secret : string) : @Client Demo.platform :=
  {| ApiUrl := "https://box.example.com/admin" : @URL Demo.platform;
     email := "admin@example.com"; password := "secret"; totp_secret := secret |}.

Definition flags (command url rname rtype rvalue zone : string) : miabdns.Flags :=
  {| miabdns.email := "admin@example.com"; miabdns.password := "secret";
     miabdns.url := url; miabdns.totp := "";
     miabdns.command := command; miabdns.recordType := rtype;
     miabdns.recordName := rname; miabdns.recordValue := rvalue;
     miabdns.zone := zone |}.

Definition box_url : string := "https://box.example.com/admin".

(** The earlier version: the user goes into the URL after the scheme. *)
Definition setUser (u : string) (email password : string) : string :=
  "https://" ++ email ++ ":" ++ password ++ "@" ++ Demo.drop_bytes 8 u.

Definition earlier_client : @gomiabdns_v0.Client Demo.platform :=
  {| gomiabdns_v0.ApiUrl :=
       setUser "https://box.example.com/admin/dns/custom" "admin@example.com" "secret"
       : @URL Demo.platform |}.

Definition earlier_flags (command url : string) : miabdns_v0.Flags :=
  {| miabdns_v0.email := "admin@example.com"; miabdns_v0.password := "secret";
     miabdns_v0.url := url; miabdns_v0.command := command;
     miabdns_v0.recordType := ""; miabdns_v0.recordName := "";
     miabdns_v0.recordValue := "" |}.

End Box2.

(** * Properties *)

Import gomiabdns.

(** ** Runs of the definitions *)

Example base64_user_pass :
  Base64.EncodeToString "me@box:secret" = "bWVAYm94OnNlY3JldA==".
Proof. reflexivity. Qed.

Example base64_two_bytes : Base64.EncodeToString "a:" = "YTo=".
Proof. reflexivity. Qed.

Example base64_three_bytes : Base64.EncodeToString "a:b" = "YTpi".
Proof. reflexivity. Qed.

Example canonical_token : Header.CanonicalMIMEHeaderKey "x-auth-token" = "X-Auth-Token".
Proof. reflexivity. Qed.

Example canonical_accept : Header.CanonicalMIMEHeaderKey "Accept" = "Accept".
Proof. reflexivity. Qed.

Example contains_admin : GoStrings.Contains "[admin]" "admin" = true.
Proof. reflexivity. Qed.

Example contains_no_admin : GoStrings.Contains "[]" "admin" = false.
Proof. reflexivity. Qed.

Example join_commands :
  GoStrings.Join miabdns.commands "," = "list,add,update,delete,zones,zonefile".
Proof. reflexivity. Qed.

(** The administrator lists the zones: a login, then the request. *)
Example admin_lists_zones :
  GetZones Box.admin Box.ctx Box.fresh =
  Returned (Ok [])
    {| apikey := "k3y";
       log :=
         [EvDo SiteLogin (login_request Box.admin Box.ctx None)
            (DoResp (ReadOk Box.admin_answer));
          EvDo SiteRequest
            (sent_request Box.admin Box.ctx MethodGet
               "https://box.example.com/admin/dns/zones" "" "k3y")
            (DoResp (ReadOk "[]"))] |}.
Proof. vm_compute. reflexivity. Qed.

(** The answer of the specification's example, a status where records
    were expected. *)
Example bad_session :
  unmarshalRecords (P:=Demo.platform)
    ("{" ++ Demo.member "status" (Demo.quoted "invalid") ++ ","
         ++ Demo.member "reason" (Demo.quoted "bad session") ++ "}") =
  Err "Error while decoding json: bad session".
Proof. reflexivity. Qed.

(** ** Lists of events and strings *)

Lemma app_one_neq {T} (l : list T) (e : T) : l <> (l ++ [e])%list.
Proof.
  intros H. apply (f_equal (@List.length T)) in H.
  rewrite length_app in H. simpl in H. lia.
Qed.

Lemma eqb_empty_false (s : string) : s <> "" -> String.eqb s "" = false.
Proof. intros H. apply String.eqb_neq. exact H. Qed.

Lemma has_percent_app (s t : string) :
  GoStrings.has_percent (s ++ t) = GoStrings.has_percent s || GoStrings.has_percent t.
Proof.
  induction s as [|c s IH]; simpl; [reflexivity|].
  rewrite IH. now rewrite orb_assoc.
Qed.

Lemma login_calls_app (l1 l2 : list Event) :
  login_calls (l1 ++ l2) = login_calls l1 + login_calls l2.
Proof. unfold login_calls. now rewrite List.filter_app, length_app. Qed.

(** Unfolding the sequencing of effects. *)
Ltac go :=
  unfold mbind, mret, Go_bind, Go_ret, read_apikey, write_apikey, http_Do,
    time_Now_, panic, fmt_Println, fmt_Print, emit in *.

(** ** The session: what [doLogin] and [doRequest] do to the world *)

Section Session.

Context {P : Platform}.

Lemma quiet_refl w : quiet w w.
Proof. split; [reflexivity|]. exists []. now rewrite app_nil_r. Qed.

Lemma quiet_trans w1 w2 w3 : quiet w1 w2 -> quiet w2 w3 -> quiet w1 w3.
Proof.
  intros [K1 [e1 [L1 N1]]] [K2 [e2 [L2 N2]]]. split; [congruence|].
  exists (e1 ++ e2)%list. split.
  - rewrite L2, L1. now rewrite <- app_assoc.
  - rewrite login_calls_app. lia.
Qed.

Lemma quiet_emit w e :
  is_login e = false ->
  quiet w {| apikey := apikey w; log := (log w ++ [e])%list |}.
Proof.
  intros H. split; [reflexivity|]. exists [e]. split; [reflexivity|].
  unfold login_calls. simpl. now rewrite H.
Qed.

(** With a key cached [doLogin] changes nothing and sends nothing: it
    returns what building the request gave. *)
Lemma doLogin_cached c ctx w :
  apikey w <> "" ->
  doLogin c ctx w = Returned (http_NewRequest_error ctx MethodPost (loginURL c)) w.
Proof.
  intros H. unfold doLogin, http_NewRequestWithContext, loginURL.
  destruct (http_NewRequest_error _ _ _); [reflexivity|].
  go. simpl. now rewrite (eqb_empty_false _ H).
Qed.

(** The world [doLogin] leaves: the one it started in, or that one with
    the exchange of the login request added and the key assigned. *)
Lemma doLogin_world c ctx w :
  match login_attempt c ctx w with
  | None => world_of (doLogin c ctx w) = w
  | Some req =>
      exists k,
        world_of (doLogin c ctx w) =
        {| apikey := k;
           log := (log w ++ [EvDo SiteLogin req (http_RoundTrip (log w) req)])%list |}
  end.
Proof.
  unfold doLogin, login_attempt, http_NewRequestWithContext, loginURL, login_request.
  destruct (http_NewRequest_error _ _ _); [reflexivity|].
  go. simpl.
  destruct (String.eqb (apikey w) ""); simpl; [|reflexivity].
  destruct (String.eqb (totp_secret c) ""); simpl;
    [|destruct (totp_GenerateCode _ _); simpl; [|reflexivity]];
    (destruct (http_RoundTrip _ _) as [[body|e]|e|e]; simpl; eauto;
     destruct (String.eqb (gjson_Get body "status") "ok");
     [destruct (GoStrings.Contains _ _); simpl; eauto
     |destruct (String.eqb (gjson_Get body "status") "invalid"); simpl; eauto]).
Qed.

(** [doLogin] either leaves the world as it is, or adds one login exchange. *)
Lemma doLogin_effect c ctx w :
  world_of (doLogin c ctx w) = w \/
  exists req k,
    world_of (doLogin c ctx w) =
      {| apikey := k;
         log := (log w ++ [EvDo SiteLogin req (http_RoundTrip (log w) req)])%list |}.
Proof.
  pose proof (doLogin_world c ctx w) as H.
  destruct (login_attempt c ctx w) as [req|]; [|now left].
  destruct H as [k H]. right. eauto.
Qed.

Lemma request_header_built (h : Header.t) (v : string) :
  h = ∅ ->
  Header.Add (Header.Set_ h "Accept" "json") "Authorization" v =
  <["Authorization" := [v]]> (<["Accept" := ["json"]]> ∅).
Proof.
  intros ->. unfold Header.Add, Header.Set_, Header.Values.
  change (Header.CanonicalMIMEHeaderKey "Accept") with "Accept".
  change (Header.CanonicalMIMEHeaderKey "Authorization") with "Authorization".
  rewrite lookup_insert_ne by discriminate.
  rewrite lookup_empty. reflexivity.
Qed.

(** [doRequest] runs [doLogin] first.  When [doLogin] panics or fails, so
    does [doRequest], in the world [doLogin] left; otherwise the key is not
    touched again, at most one exchange follows, and it is the request
    with the key [doLogin] left. *)
Lemma doRequest_after_login c ctx method requestURL value w :
  match doLogin c ctx w with
  | Panicked p w1 => doRequest c ctx method requestURL value w = Panicked p w1
  | Returned (Some err) w1 =>
      doRequest c ctx method requestURL value w =
      Returned (Err (fmt_Errorf0 ("Could not login: " ++ err))) w1
  | Returned None w1 =>
      let w' := world_of (doRequest c ctx method requestURL value w) in
      w' = w1 \/
      (apikey w1 <> "" /\
       exists reply,
         w' = {| apikey := apikey w1;
                 log := (log w1 ++ [EvDo SiteRequest
                                      (sent_request c ctx method requestURL value (apikey w1))
                                      reply])%list |})
  end.
Proof.
  unfold doRequest. go.
  destruct (doLogin c ctx w) as [[err|] w1|p w1]; simpl; try reflexivity.
  destruct (String.eqb_spec (apikey w1) "") as [E|E]; simpl; [now left|].
  unfold http_NewRequestWithContext.
  destruct (http_NewRequest_error _ _ _); simpl; [now left|].
  right. split; [exact E|].
  unfold Header_Add, Header_Set; simpl.
  rewrite request_header_built by reflexivity.
  fold (request_header c (apikey w1)).
  match goal with |- context [http_RoundTrip (log w1) ?r] =>
    exists (http_RoundTrip (log w1) r); change r with
      (sent_request c ctx method requestURL value (apikey w1)) end.
  destruct (http_RoundTrip _ _) as [[body|e]|e|e]; reflexivity.
Qed.

Lemma doRequest_quiet_after_login c ctx method requestURL value w :
  quiet (world_of (doLogin c ctx w))
        (world_of (doRequest c ctx method requestURL value w)).
Proof.
  pose proof (doRequest_after_login c ctx method requestURL value w) as H.
  destruct (doLogin c ctx w) as [[err|] w1|p w1]; simpl in *;
    try (rewrite H; apply quiet_refl).
  destruct H as [->|[_ [reply ->]]]; [apply quiet_refl|].
  now apply quiet_emit.
Qed.

Lemma quiet_login_calls w w' :
  quiet w w' -> login_calls (log w') = login_calls (log w).
Proof. intros [_ [evs [-> N]]]. rewrite login_calls_app. lia. Qed.

(** A call whose parameters are refused returns at once, in the same world. *)
Lemma invoke_rejected c ctx call w e :
  rejected call = Some e -> invoke c ctx call w = Returned (Some e) w.
Proof.
  destruct call; simpl; try discriminate; unfold AddHost, UpdateHost, DeleteHost.
  - destruct (_ || _); [|discriminate]. now intros [= <-].
  - destruct (_ || _); [|discriminate]. now intros [= <-].
  - destruct (String.eqb name ""); [|discriminate]. now intros [= <-].
Qed.

(** A call that is not refused is [doRequest] and then only decoding and
    printing. *)
Lemma invoke_after_doRequest c ctx call w :
  rejected call = None ->
  let '(method, requestURL, value) := request_of c call in
  match doRequest c ctx method requestURL value w with
  | Panicked p w' => invoke c ctx call w = Panicked p w'
  | Returned (Err e) w' => invoke c ctx call w = Returned (Some e) w'
  | Returned (Ok body) w' =>
      exists r w'', invoke c ctx call w = Returned r w'' /\ quiet w' w''
  end.
Proof.
  destruct call; simpl; unfold GetHosts, AddHost, UpdateHost, DeleteHost, GetZones,
    GetZonefile; intros R;
    try (destruct (_ || _); [discriminate|]);
    try (destruct (String.eqb name ""); [discriminate|]);
    go; simpl;
    (destruct (doRequest _ _ _ _ _ _) as [[body|e] w'|p w']; simpl; try reflexivity);
    eexists; eexists; (split; [reflexivity|]);
    try apply quiet_refl; now apply quiet_emit.
Qed.

Lemma invoke_quiet_after_login c ctx call w :
  rejected call = None ->
  quiet (world_of (doLogin c ctx w)) (world_of (invoke c ctx call w)).
Proof.
  intros R. pose proof (invoke_after_doRequest c ctx call w R) as H.
  destruct (request_of c call) as [[method requestURL] value].
  pose proof (doRequest_quiet_after_login c ctx method requestURL value w) as Q.
  destruct (doRequest _ _ _ _ _ _) as [[body|e] w'|p w']; simpl in *;
    try (rewrite H; exact Q).
  destruct H as [r [w'' [-> Q']]]. simpl. eapply quiet_trans; eauto.
Qed.

(** With a key cached a call sends no login request and keeps the key. *)
Lemma invoke_cached c ctx call w :
  apikey w <> "" -> quiet w (world_of (invoke c ctx call w)).
Proof.
  intros K. destruct (rejected call) as [e|] eqn:R.
  - rewrite (invoke_rejected _ _ _ _ _ R). apply quiet_refl.
  - pose proof (invoke_quiet_after_login c ctx call w R) as Q.
    now rewrite (doLogin_cached c ctx w K) in Q.
Qed.

Lemma invoke_all_cached calls w :
  apikey w <> "" -> quiet w (world_of (invoke_all calls w)).
Proof.
  revert w. induction calls as [|[[c ctx] call] rest IH]; intros w K; simpl.
  - apply quiet_refl.
  - pose proof (invoke_cached c ctx call w K) as Q. go.
    destruct (invoke c ctx call w) as [r w1|p w1]; simpl in *; [|exact Q].
    eapply quiet_trans; [exact Q|]. apply IH.
    destruct Q as [-> _]. exact K.
Qed.

(** A call that leaves a key where there was none made one login exchange. *)
Lemma invoke_first_login c ctx call w :
  apikey w = "" ->
  apikey (world_of (invoke c ctx call w)) <> "" ->
  login_calls (log (world_of (invoke c ctx call w))) = S (login_calls (log w)).
Proof.
  intros K0 K1. destruct (rejected call) as [e|] eqn:R.
  - rewrite (invoke_rejected _ _ _ _ _ R) in K1. simpl in K1. congruence.
  - pose proof (invoke_quiet_after_login c ctx call w R) as Q.
    rewrite (quiet_login_calls _ _ Q).
    destruct (doLogin_effect c ctx w) as [E|[req [k E]]].
    + rewrite E in Q. destruct Q as [Q _]. congruence.
    + rewrite E. simpl. rewrite login_calls_app. unfold login_calls. simpl. lia.
Qed.

End Session.

(** ** The answer to a login request *)

Section Login.

Context {P : Platform}.

(** What [doLogin] returns, and the world it leaves, when its run added the
    exchange of [req] and [reply] to the log: there was no key, and the
    outcome is decided by the reply alone. *)
Lemma doLogin_exchange c ctx w req reply :
  log (world_of (doLogin c ctx w)) = (log w ++ [EvDo SiteLogin req reply])%list ->
  apikey w = "" /\
  let w1 := {| apikey := ""; log := (log w ++ [EvDo SiteLogin req reply])%list |} in
  doLogin c ctx w =
  match reply with
  | DoErrNil _ => Panicked nil_dereference w1
  | DoErrResp err => Returned (Some err) w1
  | DoResp (ReadErr err) => Returned (Some err) w1
  | DoResp (ReadOk bodystr) =>
      if String.eqb (gjson_Get bodystr "status") "ok" then
        if GoStrings.Contains (gjson_Get bodystr "privileges") "admin" then
          Returned None {| apikey := gjson_Get bodystr "api_key"; log := log w1 |}
        else Returned (Some (fmt_Errorf0 "Account does not have admin priveleges")) w1
      else if String.eqb (gjson_Get bodystr "status") "invalid" then
        Returned (Some (fmt_Errorf0 ("Invalid response: " ++ gjson_Get bodystr "reason"))) w1
      else
        Returned
          (Some (fmt_Errorf0 ("Unforeseen return value: " ++ gjson_Get bodystr "status"))) w1
  end.
Proof.
  unfold doLogin, http_NewRequestWithContext.
  destruct (http_NewRequest_error _ _ _);
    [simpl; intros H; now apply app_one_neq in H|].
  go. simpl.
  destruct (String.eqb_spec (apikey w) "") as [E|E]; simpl;
    [|intros H; now apply app_one_neq in H].
  destruct (String.eqb (totp_secret c) ""); simpl;
    [|destruct (totp_GenerateCode _ _); simpl;
      [|intros H; now apply app_one_neq in H]];
    (destruct (http_RoundTrip _ _) as [[body|e]|e|e] eqn:RT; simpl;
     [destruct (String.eqb (gjson_Get body "status") "ok") eqn:S1;
      [destruct (GoStrings.Contains _ _) eqn:A1
      |destruct (String.eqb (gjson_Get body "status") "invalid") eqn:S2]
     | | | ]; simpl;
     intros H; apply app_inv_head in H; injection H as <- <-;
     (split; [exact E|]); simpl; rewrite ?E, ?S1, ?A1, ?S2; reflexivity).
Qed.

End Login.

(** ** The claims *)

Section Claims.

Context {P : Platform}.

(** [doRequest] adds events after those of the world it starts in, and a
    request it sends itself is [sent_request] with the key cached when it
    returns, which is not empty. *)
Lemma doRequest_events c ctx method requestURL value w :
  let w' := world_of (doRequest c ctx method requestURL value w) in
  exists evs,
    log w' = (log w ++ evs)%list /\
    forall req reply,
      In (EvDo SiteRequest req reply) evs ->
      apikey w' <> "" /\ req = sent_request c ctx method requestURL value (apikey w').
Proof.
  pose proof (doRequest_after_login c ctx method requestURL value w) as H.
  destruct (doLogin_effect c ctx w) as [E|[lreq [k E]]];
    destruct (doLogin c ctx w) as [[err|] w1|p w1]; simpl in *; subst w1;
    try (rewrite H; simpl;
         first [ exists []; split; [now rewrite app_nil_r|intros ? ? []]
               | eexists [_]; split; [reflexivity|];
                 intros ? ? [[=]|[]] ]).
  - destruct H as [->|[K [reply ->]]]; simpl.
    + exists []. split; [now rewrite app_nil_r|intros ? ? []].
    + eexists [_]. split; [reflexivity|].
      intros req reply' [[= <- <-]|[]]. now split.
  - destruct H as [->|[K [reply ->]]]; simpl.
    + eexists [_]. split; [reflexivity|]. intros ? ? [[=]|[]].
    + eexists [_; _]. split; [now rewrite <- app_assoc|].
      intros req reply' [[=]|[[= <- <-]|[]]]. now split.
Qed.

(** C1 (amended): every public method whose parameters pass its own check,
    [GetZones] and [GetZonefile] included, runs [doLogin] before anything
    else.  When [doLogin] panics or fails the call ends there, in the world
    [doLogin] left; when it succeeds the rest of the call follows in that
    world, with the key untouched and no further login exchange. *)
Theorem C1_every_call_logs_in_first c ctx call w :
  rejected call = None ->
  match doLogin c ctx w with
  | Panicked p w1 => invoke c ctx call w = Panicked p w1
  | Returned (Some err) w1 =>
      invoke c ctx call w =
      Returned (Some (fmt_Errorf0 ("Could not login: " ++ err))) w1
  | Returned None w1 => quiet w1 (world_of (invoke c ctx call w))
  end.
Proof.
  intros R.
  pose proof (invoke_after_doRequest c ctx call w R) as H.
  pose proof (invoke_quiet_after_login c ctx call w R) as Q.
  destruct (request_of c call) as [[method requestURL] value].
  pose proof (doRequest_after_login c ctx method requestURL value w) as D.
  destruct (doLogin c ctx w) as [[err|] w1|p w1]; simpl in *.
  - now rewrite D in H.
  - exact Q.
  - now rewrite D in H.
Qed.

(** C2: with a key cached, [doLogin] returns at once in the same world (nil
    when the request could be built), and whatever calls follow, with
    whatever clients, the key stays and the number of login exchanges in
    the log stays what it was.  When the key came from a first call made
    without one, that number is one more than before the first call: one
    login exchange for all the calls. *)
Theorem C2_cached_key_no_login c ctx calls w :
  apikey w <> "" ->
  doLogin c ctx w = Returned (http_NewRequest_error ctx MethodPost (loginURL c)) w /\
  apikey (world_of (invoke_all calls w)) = apikey w /\
  login_calls (log (world_of (invoke_all calls w))) = login_calls (log w) /\
  forall c0 ctx0 call0 w0,
    apikey w0 = "" ->
    w = world_of (invoke c0 ctx0 call0 w0) ->
    login_calls (log (world_of (invoke_all calls w))) = S (login_calls (log w0)).
Proof.
  intros K. split; [now apply doLogin_cached|].
  pose proof (invoke_all_cached calls w K) as Q.
  split; [apply Q|]. split; [now apply quiet_login_calls|].
  intros c0 ctx0 call0 w0 K0 E.
  rewrite (quiet_login_calls _ _ Q). subst w.
  now apply invoke_first_login.
Qed.

(** From a world with no key, a first call that leaves a key made one login
    exchange, and any calls after it make no other. *)
Lemma one_login_for_all_calls c ctx call calls w :
  apikey w = "" ->
  apikey (world_of (invoke c ctx call w)) <> "" ->
  login_calls (log (world_of (invoke_all ((c, ctx, call) :: calls) w))) =
  S (login_calls (log w)).
Proof.
  intros K0 K1. pose proof (invoke_first_login c ctx call w K0 K1) as N.
  simpl. go. destruct (invoke c ctx call w) as [r w1|p w1]; simpl in *; [|exact N].
  rewrite <- N. apply quiet_login_calls. now apply invoke_all_cached.
Qed.

(** C3, the connection error: when the round trip of the login request
    fails with no response, [doLogin] does not return the error: the
    deferred [resp.Body.Close()] panics on the nil response.  No key is
    cached. *)
Theorem C3_connection_error_panics c ctx w req e :
  log (world_of (doLogin c ctx w)) = (log w ++ [EvDo SiteLogin req (DoErrNil e)])%list ->
  doLogin c ctx w =
  Panicked nil_dereference
    {| apikey := ""; log := (log w ++ [EvDo SiteLogin req (DoErrNil e)])%list |}.
Proof. intros H. now destruct (doLogin_exchange c ctx w req _ H) as [_ ->]. Qed.

(** C3, the other failures: an error that comes with a response, and a body
    that cannot be read, are returned as they are, and no key is cached. *)
Lemma doLogin_returns_transport_error c ctx w req reply e :
  log (world_of (doLogin c ctx w)) = (log w ++ [EvDo SiteLogin req reply])%list ->
  reply = DoErrResp e \/ reply = DoResp (ReadErr e) ->
  doLogin c ctx w =
  Returned (Some e) {| apikey := ""; log := (log w ++ [EvDo SiteLogin req reply])%list |}.
Proof.
  intros H [->| ->]; now destruct (doLogin_exchange c ctx w req _ H) as [_ ->].
Qed.

(** C4, the status [invalid]: the key is empty afterwards and the error is
    what [fmt.Errorf] makes of the format ["Invalid response: " + reason]. *)
Lemma doLogin_invalid c ctx w req body :
  log (world_of (doLogin c ctx w)) =
    (log w ++ [EvDo SiteLogin req (DoResp (ReadOk body))])%list ->
  gjson_Get body "status" = "invalid" ->
  doLogin c ctx w =
  Returned (Some (fmt_Errorf0 ("Invalid response: " ++ gjson_Get body "reason")))
    {| apikey := "";
       log := (log w ++ [EvDo SiteLogin req (DoResp (ReadOk body))])%list |}.
Proof.
  intros H S. destruct (doLogin_exchange c ctx w req _ H) as [_ ->].
  now rewrite S.
Qed.

(** C4, a reason without ['%'] is in the message as the server sent it. *)
Lemma doLogin_invalid_plain_reason c ctx w req body :
  log (world_of (doLogin c ctx w)) =
    (log w ++ [EvDo SiteLogin req (DoResp (ReadOk body))])%list ->
  gjson_Get body "status" = "invalid" ->
  GoStrings.has_percent (gjson_Get body "reason") = false ->
  doLogin c ctx w =
  Returned (Some ("Invalid response: " ++ gjson_Get body "reason"))
    {| apikey := "";
       log := (log w ++ [EvDo SiteLogin req (DoResp (ReadOk body))])%list |}.
Proof.
  intros H S N. rewrite (doLogin_invalid c ctx w req body H S).
  unfold fmt_Errorf0. rewrite fmt_Sprintf0_plain; [reflexivity|].
  rewrite has_percent_app. exact N.
Qed.

(** C4, the message: the reason is the format string of [fmt.Errorf], so a
    reason that ends in the verb [%d] does not reach the caller: the
    message ends in [%!d(MISSING)]. *)
Theorem C4_reason_is_a_format c ctx w req body s :
  log (world_of (doLogin c ctx w)) =
    (log w ++ [EvDo SiteLogin req (DoResp (ReadOk body))])%list ->
  gjson_Get body "status" = "invalid" ->
  gjson_Get body "reason" = s ++ "%d" ->
  GoStrings.has_percent s = false ->
  doLogin c ctx w =
  Returned (Some ("Invalid response: " ++ s ++ "%!d(MISSING)"))
    {| apikey := "";
       log := (log w ++ [EvDo SiteLogin req (DoResp (ReadOk body))])%list |}.
Proof.
  intros H S R N. rewrite (doLogin_invalid c ctx w req body H S), R.
  unfold fmt_Errorf0.
  change ("Invalid response: " ++ s ++ "%d") with (("Invalid response: " ++ s) ++ "%d").
  rewrite fmt_Sprintf0_missing; [reflexivity|].
  rewrite has_percent_app. exact N.
Qed.

(** C4, the next call: after the answer [invalid] no key is cached, and
    [GetHosts] from a world with no key sends a login request again, before
    anything else, when the request can be built and the token, if one is
    configured, can be generated. *)
Lemma GetHosts_logs_in_without_key c ctx name recordType w req :
  apikey w = "" ->
  login_attempt c ctx w = Some req ->
  exists evs,
    log (world_of (GetHosts c ctx name recordType w)) =
      (log w ++ EvDo SiteLogin req (http_RoundTrip (log w) req) :: evs)%list /\
    login_calls evs = 0.
Proof.
  intros K L.
  pose proof (invoke_quiet_after_login c ctx (CallGetHosts name recordType) w eq_refl) as Q.
  pose proof (doLogin_world c ctx w) as D. rewrite L in D. destruct D as [k D].
  rewrite D in Q. destruct Q as [_ [evs [Q N]]]. simpl in Q.
  exists evs. split; [|exact N].
  rewrite <- app_assoc in Q. simpl in Q. rewrite <- Q.
  unfold invoke. go. now destruct (GetHosts c ctx name recordType w).
Qed.

(** C5: for the status [ok], the privileges decide.  With [admin] among
    them the key of the answer is cached and [doLogin] returns nil; without,
    [doLogin] returns the error and no key is cached. *)
Theorem C5_ok_needs_admin c ctx w req body :
  log (world_of (doLogin c ctx w)) =
    (log w ++ [EvDo SiteLogin req (DoResp (ReadOk body))])%list ->
  gjson_Get body "status" = "ok" ->
  let w' := world_of (doLogin c ctx w) in
  if GoStrings.Contains (gjson_Get body "privileges") "admin" then
    doLogin c ctx w = Returned None w' /\ apikey w' = gjson_Get body "api_key"
  else
    doLogin c ctx w = Returned (Some "Account does not have admin priveleges") w' /\
    apikey w' = "".
Proof.
  intros H S. destruct (doLogin_exchange c ctx w req _ H) as [_ E].
  simpl in *. rewrite E, S. simpl.
  destruct (GoStrings.Contains _ _); simpl; [now split|].
  unfold fmt_Errorf0. rewrite fmt_Sprintf0_plain by reflexivity. now split.
Qed.

(** C6: [AddHost] and [UpdateHost] with an empty name, record type or value
    return the error for the missing parameters in the world they were
    called in: nothing is sent, [doLogin] is not run.  With all three there
    they go on to [doRequest] with the method, the path of name and type,
    and the value as the body, and return its error or print its answer. *)
Theorem C6_missing_parameters c ctx name recordType value w :
  (name = "" \/ recordType = "" \/ value = "" ->
   AddHost c ctx name recordType value w =
     Returned (Some (missingParameters "AddHost" name recordType value)) w /\
   UpdateHost c ctx name recordType value w =
     Returned (Some (missingParameters "UpdateHost" name recordType value)) w) /\
  (name <> "" -> recordType <> "" -> value <> "" ->
   let requestURL := url_String (getApiWithPath (ApiUrl c) name recordType) in
   let finish (apiResp : Result string) : Go (option error) :=
     match apiResp with
     | Err err => mret (Some err)
     | Ok apiResp => fmt_Println apiResp;; mret None
     end in
   AddHost c ctx name recordType value w =
     (doRequest c ctx MethodPost requestURL value ≫= finish) w /\
   UpdateHost c ctx name recordType value w =
     (doRequest c ctx MethodPut requestURL value ≫= finish) w).
Proof.
  unfold AddHost, UpdateHost. split.
  - intros H.
    assert (String.eqb name "" || String.eqb recordType "" || String.eqb value "" = true)
      as ->; [|now split].
    destruct H as [->|[->| ->]]; rewrite ?String.eqb_refl, ?orb_true_r; reflexivity.
  - intros N R V.
    rewrite (eqb_empty_false _ N), (eqb_empty_false _ R), (eqb_empty_false _ V).
    now split.
Qed.

(** C7, the three cases of [unmarshalRecords]: the records when the body
    decodes as records; else, when it decodes as a status, the error
    [fmt.Errorf] makes of ["Error while decoding json: " + Reason]; else
    the error of the first decoding. *)
Lemma unmarshalRecords_cases data :
  match json_Unmarshal_records data with
  | Ok result => unmarshalRecords data = Ok result
  | Err err =>
      match json_Unmarshal_status data with
      | Ok errorResult =>
          unmarshalRecords data =
          Err (fmt_Errorf0 ("Error while decoding json: " ++ Reason errorResult))
      | Err _ => unmarshalRecords data = Err err
      end
  end.
Proof.
  unfold unmarshalRecords.
  destruct (json_Unmarshal_records data); [reflexivity|].
  now destruct (json_Unmarshal_status data).
Qed.

(** C7, a reason without ['%'] is in the message as the server sent it. *)
Lemma unmarshalRecords_plain_reason data err errorResult :
  json_Unmarshal_records data = Err err ->
  json_Unmarshal_status data = Ok errorResult ->
  GoStrings.has_percent (Reason errorResult) = false ->
  unmarshalRecords data = Err ("Error while decoding json: " ++ Reason errorResult).
Proof.
  intros R S N. unfold unmarshalRecords. rewrite R, S.
  unfold fmt_Errorf0. rewrite fmt_Sprintf0_plain; [reflexivity|].
  rewrite has_percent_app. exact N.
Qed.

(** C7, the message: the reason of the status is the format string of
    [fmt.Errorf], so a reason that ends in the verb [%d] does not reach the
    caller: the message ends in [%!d(MISSING)]. *)
Theorem C7_reason_is_a_format data err errorResult s :
  json_Unmarshal_records data = Err err ->
  json_Unmarshal_status data = Ok errorResult ->
  Reason errorResult = s ++ "%d" ->
  GoStrings.has_percent s = false ->
  unmarshalRecords data = Err ("Error while decoding json: " ++ s ++ "%!d(MISSING)").
Proof.
  intros R S E N. unfold unmarshalRecords. rewrite R, S, E.
  unfold fmt_Errorf0.
  change ("Error while decoding json: " ++ s ++ "%d")
    with (("Error while decoding json: " ++ s) ++ "%d").
  rewrite fmt_Sprintf0_missing; [reflexivity|].
  rewrite has_percent_app. exact N.
Qed.

(** C8: a request that [doRequest] itself sends has exactly two header
    fields: [Accept] with the value [json], and [Authorization] with the
    value [Basic] and the base64 of the email, a colon and the key in
    [apikey], which is not empty; the password is in neither. *)
Theorem C8_request_authorization c ctx method requestURL value w evs req reply :
  log (world_of (doRequest c ctx method requestURL value w)) = (log w ++ evs)%list ->
  In (EvDo SiteRequest req reply) evs ->
  let k := apikey (world_of (doRequest c ctx method requestURL value w)) in
  k <> "" /\
  Header.Values (req_header req) "Authorization" =
    ["Basic " ++ Base64.EncodeToString (email c ++ ":" ++ k)] /\
  Header.Values (req_header req) "Accept" = ["json"] /\
  req_header req =
    <["Authorization" := ["Basic " ++ Base64.EncodeToString (email c ++ ":" ++ k)]]>
      (<["Accept" := ["json"]]> ∅).
Proof.
  intros L I. destruct (doRequest_events c ctx method requestURL value w) as [evs' [L' S]].
  simpl in *. rewrite L in L'. apply app_inv_head in L'. subst evs'.
  destruct (S req reply I) as [K ->]. split; [exact K|].
  unfold sent_request, request_header, Header.Values. simpl.
  change (Header.CanonicalMIMEHeaderKey "Accept") with "Accept".
  change (Header.CanonicalMIMEHeaderKey "Authorization") with "Authorization".
  rewrite lookup_insert_eq, lookup_insert_ne by discriminate.
  rewrite lookup_insert_eq. auto.
Qed.

(** C10: with an empty name the record type is not looked at: the URL is
    the API URL joined with [dns] and [custom], [GetHosts] does the same as
    with both empty, and a request it sends goes to that URL. *)
Theorem C10_empty_name_ignores_type c ctx recordType w :
  getApiWithPath (ApiUrl c) "" recordType = url_JoinPath (ApiUrl c) ["dns"; "custom"] /\
  getApiWithPath (ApiUrl c) "" recordType = getApiWithPath (ApiUrl c) "" "" /\
  GetHosts c ctx "" recordType w = GetHosts c ctx "" "" w /\
  forall evs req reply,
    log (world_of (GetHosts c ctx "" recordType w)) = (log w ++ evs)%list ->
    In (EvDo SiteRequest req reply) evs ->
    req_url req = url_String (url_JoinPath (ApiUrl c) ["dns"; "custom"]).
Proof.
  repeat split.
  intros evs req reply L I. unfold GetHosts in L. simpl in L. go.
  destruct (doRequest_events c ctx MethodGet
              (url_String (url_JoinPath (ApiUrl c) ["dns"; "custom"])) "" w)
    as [evs' [L' S]].
  simpl in *.
  destruct (doRequest _ _ _ _ _ _) as [[body|e] w'|p w']; simpl in *;
    rewrite L in L'; apply app_inv_head in L'; subst evs';
    now destruct (S req reply I) as [_ ->].
Qed.

End Claims.

(** ** The command line *)

Section CommandLine.

Context {P : Platform}.

Import miabdns.

(** C9 (amended): for a command that is not empty and not one of the six,
    [main] prints the usage line on standard output and returns: the exit
    status is 0, no client is made, nothing is sent, nothing goes to
    standard error. *)
Theorem C9_unknown_command_prints_usage f w :
  command f <> "" ->
  GoStrings.slices_Contains commands (command f) = false ->
  run f w =
  {| exit_status := 0;
     exit_world :=
       {| apikey := apikey w;
          log := (log w ++ [EvStdout (usage ++ GoStrings.nl)])%list |} |}.
Proof.
  intros E C. unfold run, main.
  rewrite (eqb_empty_false _ E), C. reflexivity.
Qed.

(** The empty command is the command [list]. *)
Lemma empty_command_is_list f w :
  command f = "" ->
  main f w =
  main {| email := email f; password := password f; url := url f; totp := totp f;
          command := "list"; recordType := recordType f; recordName := recordName f;
          recordValue := recordValue f; zone := zone f |} w.
Proof. intros E. unfold main. simpl. rewrite E. reflexivity. Qed.

End CommandLine.

(** ** The claims on the box of [Demo] *)

Module OnTheBox.

Import miabdns Box.

Example logged_in_key : apikey logged_in = "k3y".
Proof. reflexivity. Qed.

(** C1, as stated, fails: from a world with no key, [GetZones] and
    [GetZonefile] each send a login request like every other method. *)
Lemma C1_zones_do_log_in :
  ~ skips_login admin CallGetZones fresh /\
  ~ skips_login admin (CallGetZonefile "example.com") fresh.
Proof. split; intros H; vm_compute in H; discriminate H. Qed.

(** C1 on the box: the administrator lists the zones from a world with no
    key. *)
Lemma C1_witness :
  rejected CallGetZones = None /\
  quiet (world_of (doLogin admin ctx fresh)) (world_of (invoke admin ctx CallGetZones fresh)).
Proof.
  split; [reflexivity|].
  exact (C1_every_call_logs_in_first admin ctx CallGetZones fresh eq_refl).
Defined.

(** C2 on the box: three more calls, of two clients, after the
    administrator logged in. *)
Lemma C2_witness :
  let calls :=
    [(admin, ctx, CallGetHosts "" "");
     (user, ctx, CallAddHost "www.example.com" A "192.0.2.1");
     (admin, ctx, CallGetZonefile "example.com")] in
  apikey logged_in <> "" /\
  doLogin user ctx logged_in = Returned None logged_in /\
  apikey (world_of (invoke_all calls logged_in)) = apikey logged_in /\
  login_calls (log (world_of (invoke_all calls logged_in))) = login_calls (log logged_in) /\
  login_calls (log (world_of (invoke_all calls logged_in))) = S (login_calls (log fresh)).
Proof.
  split; [discriminate|].
  destruct (C2_cached_key_no_login (P:=Demo.platform) user ctx
              [(admin, ctx, CallGetHosts "" "");
               (user, ctx, CallAddHost "www.example.com" A "192.0.2.1");
               (admin, ctx, CallGetZonefile "example.com")] logged_in)
    as [H1 [H2 [H3 H4]]]; [discriminate|].
  repeat apply conj; [exact H1|exact H2|exact H3|].
  apply (H4 admin ctx CallGetZones fresh); reflexivity.
Defined.

(** C3 on the box: the host that refuses connections. *)
Lemma C3_witness :
  let req := login_request cut_off ctx None in
  log (world_of (doLogin cut_off ctx fresh)) =
    (log fresh ++ [EvDo SiteLogin req (DoErrNil refused)])%list /\
  doLogin cut_off ctx fresh =
    Panicked nil_dereference
      {| apikey := "";
         log := (log fresh ++ [EvDo SiteLogin req (DoErrNil refused)])%list |}.
Proof.
  split; [vm_compute; reflexivity|].
  apply (C3_connection_error_panics (P:=Demo.platform)). vm_compute. reflexivity.
Defined.

(** C4 on the box: the account whose refusal has a [%d] in its reason. *)
Lemma C4_witness :
  let req := login_request noisy ctx None in
  Demo.get noisy_answer "reason" = "lockout at 100" ++ "%d" /\
  doLogin noisy ctx fresh =
    Returned (Some ("Invalid response: " ++ "lockout at 100" ++ "%!d(MISSING)"))
      {| apikey := "";
         log := (log fresh ++ [EvDo SiteLogin req (DoResp (ReadOk noisy_answer))])%list |}.
Proof.
  split; [vm_compute; reflexivity|].
  apply (C4_reason_is_a_format (P:=Demo.platform)); vm_compute; reflexivity.
Defined.

(** C5 on the box: the administrator, and the user without privileges. *)
Lemma C5_witness :
  (doLogin admin ctx fresh = Returned None (world_of (doLogin admin ctx fresh)) /\
   apikey (world_of (doLogin admin ctx fresh)) = "k3y") /\
  (doLogin user ctx fresh =
     Returned (Some "Account does not have admin priveleges")
       (world_of (doLogin user ctx fresh)) /\
   apikey (world_of (doLogin user ctx fresh)) = "").
Proof.
  split.
  - apply (C5_ok_needs_admin (P:=Demo.platform) admin ctx fresh
             (login_request admin ctx None) admin_answer);
      vm_compute; reflexivity.
  - apply (C5_ok_needs_admin (P:=Demo.platform) user ctx fresh
             (login_request user ctx None) user_answer);
      vm_compute; reflexivity.
Defined.

(** C6 on the box: each of the three parameters missing in turn. *)
Lemma C6_witness :
  (AddHost admin ctx "" A "192.0.2.1" fresh =
     Returned (Some (missingParameters "AddHost" "" A "192.0.2.1")) fresh /\
   UpdateHost admin ctx "" A "192.0.2.1" fresh =
     Returned (Some (missingParameters "UpdateHost" "" A "192.0.2.1")) fresh) /\
  (AddHost admin ctx "www.example.com" "" "192.0.2.1" logged_in =
     Returned (Some (missingParameters "AddHost" "www.example.com" "" "192.0.2.1"))
       logged_in /\
   UpdateHost admin ctx "www.example.com" "" "192.0.2.1" logged_in =
     Returned (Some (missingParameters "UpdateHost" "www.example.com" "" "192.0.2.1"))
       logged_in) /\
  (AddHost admin ctx "www.example.com" A "" fresh =
     Returned (Some (missingParameters "AddHost" "www.example.com" A "")) fresh /\
   UpdateHost admin ctx "www.example.com" A "" fresh =
     Returned (Some (missingParameters "UpdateHost" "www.example.com" A "")) fresh).
Proof.
  repeat apply conj.
  - apply (C6_missing_parameters (P:=Demo.platform) admin ctx "" A "192.0.2.1" fresh).
    left. reflexivity.
  - apply (C6_missing_parameters (P:=Demo.platform) admin ctx "" A "192.0.2.1" fresh).
    left. reflexivity.
  - apply (C6_missing_parameters (P:=Demo.platform) admin ctx "www.example.com" ""
             "192.0.2.1" logged_in).
    right. left. reflexivity.
  - apply (C6_missing_parameters (P:=Demo.platform) admin ctx "www.example.com" ""
             "192.0.2.1" logged_in).
    right. left. reflexivity.
  - apply (C6_missing_parameters (P:=Demo.platform) admin ctx "www.example.com" A "" fresh).
    right. right. reflexivity.
  - apply (C6_missing_parameters (P:=Demo.platform) admin ctx "www.example.com" A "" fresh).
    right. right. reflexivity.
Defined.

(** C7 on the box: a status with a [%d] in its reason where records were
    expected. *)
Lemma C7_witness :
  Demo.unmarshal_status noisy_answer =
    Ok {| Status := "invalid"; Reason := "lockout at 100" ++ "%d" |} /\
  unmarshalRecords (P:=Demo.platform) noisy_answer =
    Err ("Error while decoding json: " ++ "lockout at 100" ++ "%!d(MISSING)").
Proof.
  split; [vm_compute; reflexivity|].
  apply (C7_reason_is_a_format (P:=Demo.platform) noisy_answer
           "json: cannot unmarshal object into Go value of type []gomiabdns.DNSRecord"
           {| Status := "invalid"; Reason := "lockout at 100" ++ "%d" |});
    vm_compute; reflexivity.
Defined.

(** C8 on the box: the request for the records after the login of the
    administrator. *)
Lemma C8_witness :
  let requestURL := "https://box.example.com/admin/dns/custom" in
  let req := sent_request admin ctx MethodGet requestURL "" "k3y" in
  let k := apikey (world_of (doRequest admin ctx MethodGet requestURL "" fresh)) in
  k <> "" /\
  Header.Values (req_header req) "Authorization" =
    ["Basic " ++ Base64.EncodeToString (gomiabdns.email admin ++ ":" ++ k)] /\
  Header.Values (req_header req) "Accept" = ["json"] /\
  req_header req =
    <["Authorization" :=
        ["Basic " ++ Base64.EncodeToString (gomiabdns.email admin ++ ":" ++ k)]]>
      (<["Accept" := ["json"]]> ∅).
Proof.
  apply (C8_request_authorization (P:=Demo.platform) admin ctx MethodGet
           "https://box.example.com/admin/dns/custom" "" fresh
           [EvDo SiteLogin (login_request admin ctx None) (DoResp (ReadOk admin_answer));
            EvDo SiteRequest
              (sent_request admin ctx MethodGet
                 "https://box.example.com/admin/dns/custom" "" "k3y")
              (DoResp (ReadOk "[]"))]
           _ (DoResp (ReadOk "[]"))).
  - vm_compute. reflexivity.
  - right. left. reflexivity.
Defined.

(** C9, as stated, fails: for the command [bogus] the exit status is 0 and
    nothing is written to standard error; the usage line is on standard
    output. *)
Lemma C9_unknown_command_exits_0 : ~ reports_usage_error (P:=Demo.platform) bogus fresh.
Proof. intros [H _]. apply H. reflexivity. Qed.

Example bogus_output :
  let e := run (P:=Demo.platform) bogus fresh in
  exit_status e = 0%Z /\ stderr_of (log (exit_world e)) = "" /\
  stdout_of (log (exit_world e)) = usage ++ GoStrings.nl.
Proof. repeat split. Qed.

(** C9 on the box: the command [bogus]. *)
Lemma C9_witness :
  command bogus <> "" /\
  GoStrings.slices_Contains commands (command bogus) = false /\
  run (P:=Demo.platform) bogus fresh =
  {| exit_status := 0;
     exit_world :=
       {| apikey := apikey fresh;
          log := (log fresh ++ [EvStdout (usage ++ GoStrings.nl)])%list |} |}.
Proof.
  split; [discriminate|]. split; [reflexivity|].
  apply (C9_unknown_command_prints_usage (P:=Demo.platform)); [discriminate|reflexivity].
Defined.

End OnTheBox.

(** * More properties of the client *)

Section MoreSession.

Context {P : Platform}.

Lemma app_nil_inv {T} (l x : list T) : l = (l ++ x)%list -> x = [].
Proof.
  intros H. rewrite <- (app_nil_r l) in H at 1. now apply app_inv_head in H.
Qed.

(** What [doLogin] returns when it does not get to the network. *)
Lemma doLogin_without_attempt c ctx w :
  login_attempt c ctx w = None ->
  doLogin c ctx w =
  Returned
    (match http_NewRequest_error ctx MethodPost (loginURL c) with
     | Some err => Some err
     | None =>
         if negb (String.eqb (apikey w) "") then None
         else
           match totp_GenerateCode (totp_secret c) (time_Now (log w)) with
           | Err err => Some (fmt_Errorf0 ("Error generating TOTP token: " ++ err))
           | Ok _ => None
           end
     end) w.
Proof.
  unfold login_attempt, doLogin, http_NewRequestWithContext. fold (loginURL c).
  destruct (http_NewRequest_error _ _ _); [reflexivity|].
  go. simpl.
  destruct (String.eqb (apikey w) ""); simpl; [|reflexivity].
  destruct (String.eqb (totp_secret c) ""); simpl; [discriminate|].
  destruct (totp_GenerateCode _ _); [discriminate|reflexivity].
Qed.

(** The log after [doLogin]: as before, or with one login exchange, and
    then there was no key. *)
Lemma log_after_login c ctx w :
  exists l,
    log (world_of (doLogin c ctx w)) = (log w ++ l)%list /\
    (l = [] \/
     (apikey w = "" /\ exists req reply, l = [EvDo SiteLogin req reply])).
Proof.
  pose proof (doLogin_world c ctx w) as H.
  destruct (login_attempt c ctx w) as [req|] eqn:L.
  - destruct H as [k H]. rewrite H. simpl. eexists. split; [reflexivity|].
    right. split; [|eauto].
    unfold login_attempt in L. destruct (http_NewRequest_error _ _ _); [discriminate|].
    destruct (String.eqb_spec (apikey w) ""); [assumption|discriminate].
  - rewrite H. exists []. rewrite app_nil_r. auto.
Qed.

(** [doRequest], with the header of its request worked out. *)
Lemma doRequest_outcome c ctx method requestURL value w :
  doRequest c ctx method requestURL value w =
  match doLogin c ctx w with
  | Panicked p w1 => Panicked p w1
  | Returned (Some err) w1 =>
      Returned (Err (fmt_Errorf0 ("Could not login: " ++ err))) w1
  | Returned None w1 =>
      if String.eqb (apikey w1) "" then Returned (Err (fmt_Errorf0 "Could not login")) w1
      else
        match http_NewRequest_error ctx method requestURL with
        | Some err => Returned (Err err) w1
        | None =>
            let req := sent_request c ctx method requestURL value (apikey w1) in
            let reply := http_RoundTrip (log w1) req in
            request_outcome reply
              {| apikey := apikey w1;
                 log := (log w1 ++ [EvDo SiteRequest req reply])%list |}
        end
  end.
Proof.
  unfold doRequest. go.
  destruct (doLogin c ctx w) as [[err|] w1|p w1]; simpl; try reflexivity.
  destruct (String.eqb (apikey w1) ""); simpl; [reflexivity|].
  unfold http_NewRequestWithContext.
  destruct (http_NewRequest_error _ _ _); simpl; [reflexivity|].
  unfold Header_Add, Header_Set; simpl.
  rewrite request_header_built by reflexivity.
  fold (request_header c (apikey w1)).
  match goal with |- context [http_RoundTrip (log w1) ?r] =>
    change r with (sent_request c ctx method requestURL value (apikey w1)) end.
  destruct (http_RoundTrip _ _) as [[body|e]|e|e]; reflexivity.
Qed.

(** A call that passes its check, in terms of [doRequest]. *)
Lemma invoke_outcome c ctx call w :
  rejected call = None ->
  let '(method, requestURL, value) := request_of c call in
  invoke c ctx call w =
  match doRequest c ctx method requestURL value w with
  | Panicked p w' => Panicked p w'
  | Returned (Err e) w' => Returned (Some e) w'
  | Returned (Ok body) w' =>
      Returned (decode_error call body)
        (if is_write call
         then {| apikey := apikey w';
                 log := (log w' ++ [EvStdout (body ++ GoStrings.nl)])%list |}
         else w')
  end.
Proof.
  destruct call; simpl; unfold GetHosts, AddHost, UpdateHost, DeleteHost, GetZones,
    GetZonefile; intros R;
    try (destruct (_ || _); [discriminate|]);
    try (destruct (String.eqb name ""); [discriminate|]);
    go; simpl;
    destruct (doRequest _ _ _ _ _ _) as [[body|e] w'|p w']; reflexivity.
Qed.

Lemma world_of_request_outcome reply w : world_of (request_outcome reply w) = w.
Proof. now destruct reply as [[body|e]|e|e]. Qed.

(** The events of [doRequest]: at most one login exchange, and only from a
    world with no key, then at most one exchange of its own request, whose
    reply decides what it returns. *)
Lemma doRequest_shape c ctx method requestURL value w :
  let o := doRequest c ctx method requestURL value w in
  exists l r,
    log (world_of o) = (log w ++ l ++ r)%list /\
    (l = [] \/ (apikey w = "" /\ exists req reply, l = [EvDo SiteLogin req reply])) /\
    ((r = [] /\ forall body, o <> Returned (Ok body) (world_of o)) \/
     (exists reply,
        r = [EvDo SiteRequest
               (sent_request c ctx method requestURL value (apikey (world_of o))) reply] /\
        apikey (world_of o) <> "" /\
        o = request_outcome reply (world_of o))).
Proof.
  rewrite doRequest_outcome.
  destruct (log_after_login c ctx w) as [l [L HL]].
  assert (forall (r : Result string) w1,
            (forall body, r <> Ok body) ->
            log w1 = (log w ++ l)%list ->
            exists l0 r0,
              log w1 = (log w ++ l0 ++ r0)%list /\
              (l0 = [] \/ (apikey w = "" /\ exists req reply, l0 = [EvDo SiteLogin req reply])) /\
              ((r0 = [] /\ forall body, Returned r w1 <> Returned (Ok body) w1) \/
               (exists reply,
                  r0 = [EvDo SiteRequest
                          (sent_request c ctx method requestURL value (apikey w1)) reply] /\
                  apikey w1 <> "" /\
                  Returned r w1 = request_outcome reply w1))) as Quiet.
  { intros r w1 N E. exists l, []. rewrite app_nil_r. split; [exact E|].
    split; [exact HL|]. left. split; [reflexivity|].
    intros body [= B]. now apply (N body). }
  destruct (doLogin c ctx w) as [[err|] w1|p w1]; simpl in *.
  - apply Quiet; [discriminate|exact L].
  - destruct (String.eqb_spec (apikey w1) "") as [E|E]; simpl;
      [apply Quiet; [discriminate|exact L]|].
    destruct (http_NewRequest_error _ _ _); simpl;
      [apply Quiet; [discriminate|exact L]|].
    rewrite world_of_request_outcome. simpl.
    exists l. eexists [_]. split; [rewrite app_assoc, <- L; reflexivity|].
    split; [exact HL|]. right. eexists. split; [reflexivity|]. now split.
  - exists l, []. rewrite app_nil_r. split; [exact L|]. split; [exact HL|].
    left. split; [reflexivity|]. discriminate.
Qed.

(** X1: the key after [doLogin].  When [doLogin] returns nil, either there
    was a key and the world is as before, or there was none and the key is
    the [api_key] of an answer with status [ok] and [admin] among the
    privileges; when it returns an error or panics, the key is what it
    was. *)
Theorem doLogin_key_provenance c ctx w :
  match doLogin c ctx w with
  | Returned None w' =>
      (apikey w <> "" /\ w' = w) \/
      (apikey w = "" /\
       exists req body,
         log w' = (log w ++ [EvDo SiteLogin req (DoResp (ReadOk body))])%list /\
         gjson_Get body "status" = "ok" /\
         GoStrings.Contains (gjson_Get body "privileges") "admin" = true /\
         apikey w' = gjson_Get body "api_key")
  | Returned (Some _) w' => apikey w' = apikey w
  | Panicked _ w' => apikey w' = apikey w
  end.
Proof.
  pose proof (doLogin_world c ctx w) as W.
  pose proof (doLogin_without_attempt c ctx w) as N.
  destruct (login_attempt c ctx w) as [req|] eqn:L.
  - clear N. destruct W as [k W].
    assert (log (world_of (doLogin c ctx w)) =
            (log w ++ [EvDo SiteLogin req (http_RoundTrip (log w) req)])%list) as H
      by now rewrite W.
    destruct (doLogin_exchange c ctx w req _ H) as [K E]. simpl in E. rewrite E.
    destruct (http_RoundTrip (log w) req) as [[body|e]|e|e]; simpl; try (symmetry; exact K).
    destruct (String.eqb_spec (gjson_Get body "status") "ok") as [S|S].
    + destruct (GoStrings.Contains _ _) eqn:A; simpl; [|symmetry; exact K].
      right. split; [exact K|]. exists req, body. auto.
    + destruct (String.eqb (gjson_Get body "status") "invalid"); simpl; symmetry; exact K.
  - rewrite (N eq_refl). clear N W.
    unfold login_attempt in L.
    destruct (http_NewRequest_error _ _ _); [reflexivity|].
    destruct (String.eqb_spec (apikey w) "") as [K|K]; simpl in *; [|now left].
    destruct (String.eqb (totp_secret c) ""); simpl in *; [discriminate|].
    destruct (totp_GenerateCode _ _); [discriminate|reflexivity].
Qed.

(** X2: a login answer whose status is neither [ok] nor [invalid] (a
    missing status is the empty string) leaves no key, and the error names
    the status as it came, when the status has no ['%']. *)
Theorem doLogin_unforeseen_status c ctx w req body :
  log (world_of (doLogin c ctx w)) =
    (log w ++ [EvDo SiteLogin req (DoResp (ReadOk body))])%list ->
  gjson_Get body "status" <> "ok" ->
  gjson_Get body "status" <> "invalid" ->
  GoStrings.has_percent (gjson_Get body "status") = false ->
  doLogin c ctx w =
  Returned (Some ("Unforeseen return value: " ++ gjson_Get body "status"))
    {| apikey := "";
       log := (log w ++ [EvDo SiteLogin req (DoResp (ReadOk body))])%list |}.
Proof.
  intros H S1 S2 N. destruct (doLogin_exchange c ctx w req _ H) as [_ ->].
  apply String.eqb_neq in S1, S2. rewrite S1, S2.
  unfold fmt_Errorf0. rewrite fmt_Sprintf0_plain; [reflexivity|].
  rewrite has_percent_app. exact N.
Qed.

(** A call that passes its check returns the error of [doLogin], with the
    prefix of [doRequest], in the world [doLogin] left. *)
Lemma invoke_login_failed c ctx call w e w1 :
  rejected call = None ->
  doLogin c ctx w = Returned (Some e) w1 ->
  invoke c ctx call w = Returned (Some (fmt_Errorf0 ("Could not login: " ++ e))) w1.
Proof.
  intros R D. pose proof (invoke_outcome c ctx call w R) as I.
  destruct (request_of c call) as [[method requestURL] value].
  rewrite I, doRequest_outcome, D. reflexivity.
Qed.

(** X3: with a TOTP secret from which no code can be generated, a call
    from a world with no key sends nothing: it returns the error of the
    generation behind the two prefixes, in the same world. *)
Theorem totp_failure_sends_nothing c ctx call w e :
  rejected call = None ->
  apikey w = "" ->
  http_NewRequest_error ctx MethodPost (loginURL c) = None ->
  totp_secret c <> "" ->
  totp_GenerateCode (totp_secret c) (time_Now (log w)) = Err e ->
  GoStrings.has_percent e = false ->
  invoke c ctx call w =
  Returned (Some ("Could not login: Error generating TOTP token: " ++ e)) w.
Proof.
  intros R K B T G N.
  assert (login_attempt c ctx w = None) as L.
  { unfold login_attempt. rewrite B, K, (eqb_empty_false _ T), G. reflexivity. }
  pose proof (doLogin_without_attempt c ctx w L) as D.
  rewrite B, K, G in D. simpl in D.
  rewrite (invoke_login_failed c ctx call w _ w R D).
  unfold fmt_Errorf0.
  rewrite (fmt_Sprintf0_plain ("Error generating TOTP token: " ++ e))
    by (rewrite has_percent_app; exact N).
  rewrite fmt_Sprintf0_plain; [reflexivity|].
  rewrite !has_percent_app. exact N.
Qed.

(** X5: the login request is built before the key is looked at.  When it
    cannot be built ([http.NewRequestWithContext] fails, as for a nil
    context), a call returns that error behind the prefix of [doRequest]
    and sends nothing, with a key cached or not. *)
Theorem unbuildable_login_request_blocks_calls c ctx call w e :
  rejected call = None ->
  http_NewRequest_error ctx MethodPost (loginURL c) = Some e ->
  invoke c ctx call w = Returned (Some (fmt_Errorf0 ("Could not login: " ++ e))) w.
Proof.
  intros R B. apply invoke_login_failed; [exact R|].
  unfold doLogin, http_NewRequestWithContext. fold (loginURL c). now rewrite B.
Qed.

(** X6: an answer with status [ok] and [admin] but an empty (or missing)
    [api_key] is no login: [doLogin] returns nil with no key, and the call
    returns ["Could not login"] without sending its own request. *)
Theorem empty_api_key_is_no_login c ctx call w req body :
  rejected call = None ->
  log (world_of (doLogin c ctx w)) =
    (log w ++ [EvDo SiteLogin req (DoResp (ReadOk body))])%list ->
  gjson_Get body "status" = "ok" ->
  GoStrings.Contains (gjson_Get body "privileges") "admin" = true ->
  gjson_Get body "api_key" = "" ->
  doLogin c ctx w =
    Returned None
      {| apikey := "";
         log := (log w ++ [EvDo SiteLogin req (DoResp (ReadOk body))])%list |} /\
  invoke c ctx call w =
    Returned (Some "Could not login")
      {| apikey := "";
         log := (log w ++ [EvDo SiteLogin req (DoResp (ReadOk body))])%list |}.
Proof.
  intros R H S A K. destruct (doLogin_exchange c ctx w req _ H) as [_ D].
  simpl in D. rewrite S, A, K in D. simpl in D. split; [exact D|].
  pose proof (invoke_outcome c ctx call w R) as I.
  destruct (request_of c call) as [[method requestURL] value].
  rewrite I, doRequest_outcome, D. simpl.
  unfold fmt_Errorf0. now rewrite fmt_Sprintf0_plain by reflexivity.
Qed.

(** The header of the login request. *)
Lemma login_request_header c ctx token :
  let h := req_header (login_request c ctx token) in
  Header.Values h "Accept" = ["JSON"] /\
  Header.Values h "Authorization" =
    ["Basic " ++ Base64.EncodeToString (email c ++ ":" ++ password c)] /\
  Header.Values h "x-auth-token" =
    match token with
    | Some token => [token]
    | None => []
    end.
Proof.
  unfold login_request, Header_Add, Header_Set, Header.Add, Header.Set_, Header.Values.
  change (Header.CanonicalMIMEHeaderKey "Accept") with "Accept".
  change (Header.CanonicalMIMEHeaderKey "Authorization") with "Authorization".
  change (Header.CanonicalMIMEHeaderKey "x-auth-token") with "X-Auth-Token".
  destruct token as [token|]; simpl;
    repeat (rewrite lookup_insert_eq || (rewrite lookup_insert_ne by discriminate)
            || rewrite lookup_empty); simpl; auto.
Qed.

(** X4: what [doLogin] sends.  Any exchange it adds to the log is a POST to
    the login URL with the context of the call and no body, with [Accept:
    JSON], the Basic authorization of email and password, and the header
    [X-Auth-Token] exactly when a TOTP secret is configured: then with the
    code generated for the time of the call. *)
Theorem login_request_shape c ctx w evs site req reply :
  log (world_of (doLogin c ctx w)) = (log w ++ evs)%list ->
  In (EvDo site req reply) evs ->
  site = SiteLogin /\ req_ctx req = ctx /\ req_method req = MethodPost /\
  req_url req = loginURL c /\ req_body req = None /\
  Header.Values (req_header req) "Accept" = ["JSON"] /\
  Header.Values (req_header req) "Authorization" =
    ["Basic " ++ Base64.EncodeToString (email c ++ ":" ++ password c)] /\
  if String.eqb (totp_secret c) "" then
    Header.Values (req_header req) "x-auth-token" = []
  else
    exists token,
      totp_GenerateCode (totp_secret c) (time_Now (log w)) = Ok token /\
      Header.Values (req_header req) "x-auth-token" = [token].
Proof.
  intros L I. pose proof (doLogin_world c ctx w) as W.
  destruct (login_attempt c ctx w) as [req0|] eqn:A.
  - destruct W as [k W]. rewrite W in L. simpl in L.
    apply app_inv_head in L. subst evs. destruct I as [[= <- <- <-]|[]].
    unfold login_attempt in A.
    destruct (http_NewRequest_error _ _ _); [discriminate|].
    destruct (String.eqb (apikey w) ""); simpl in A; [|discriminate].
    destruct (String.eqb (totp_secret c) ""); simpl in A.
    + injection A as <-.
      destruct (login_request_header c ctx None) as [H1 [H2 H3]]. simpl in *.
      repeat (split; [reflexivity || assumption|]). exact H3.
    + destruct (totp_GenerateCode _ _) as [token|e]; [|discriminate].
      injection A as <-.
      destruct (login_request_header c ctx (Some token)) as [H1 [H2 H3]]. simpl in *.
      repeat (split; [reflexivity || assumption|]). exists token. now split.
  - rewrite W in L. apply app_nil_inv in L. now subst evs.
Qed.

(** When the log of [doRequest] ends with the exchange of a request of
    its own, the reply decides. *)
Lemma doRequest_last_exchange c ctx method requestURL value w evs req reply :
  log (world_of (doRequest c ctx method requestURL value w)) =
    (log w ++ evs ++ [EvDo SiteRequest req reply])%list ->
  doRequest c ctx method requestURL value w =
  request_outcome reply (world_of (doRequest c ctx method requestURL value w)).
Proof.
  intros H.
  destruct (doRequest_shape c ctx method requestURL value w) as [l [r [L [HL HR]]]].
  simpl in *. rewrite H in L. apply app_inv_head in L.
  destruct HR as [[-> _]|[reply0 [-> [_ E]]]].
  - rewrite app_nil_r in L. exfalso.
    destruct HL as [->|[_ [lreq [lreply ->]]]].
    + now destruct evs.
    + change [EvDo SiteLogin lreq lreply] with ([] ++ [EvDo SiteLogin lreq lreply])%list in L.
      apply app_inj_tail in L. destruct L as [_ [=]].
  - apply app_inj_tail in L. destruct L as [_ [= _ <-]]. exact E.
Qed.

(** X7: what [doRequest] does with the reply to its own request.  A body
    that was read is returned as it is; an error of the read, and an error
    that comes with a response, are returned as they are, without a
    prefix; with an error and no response (a connection failure)
    [doRequest] panics on the nil response, as [doLogin] does. *)
Theorem doRequest_reply_decides c ctx method requestURL value w evs req reply :
  log (world_of (doRequest c ctx method requestURL value w)) =
    (log w ++ evs ++ [EvDo SiteRequest req reply])%list ->
  let w' := world_of (doRequest c ctx method requestURL value w) in
  doRequest c ctx method requestURL value w =
  match reply with
  | DoResp (ReadOk body) => Returned (Ok body) w'
  | DoResp (ReadErr err) => Returned (Err err) w'
  | DoErrResp err => Returned (Err err) w'
  | DoErrNil _ => Panicked nil_dereference w'
  end.
Proof. intros H. exact (doRequest_last_exchange _ _ _ _ _ _ _ _ _ H). Qed.

(** The events of a call: those of [doRequest], and for the methods that
    print, the line with the answer after an answer that was read. *)
Lemma invoke_shape c ctx call w :
  let '(method, requestURL, value) := request_of c call in
  let w' := world_of (invoke c ctx call w) in
  exists l r p,
    log w' = (log w ++ l ++ r ++ p)%list /\
    (l = [] \/ (apikey w = "" /\ exists req reply, l = [EvDo SiteLogin req reply])) /\
    (r = [] \/
     (apikey w' <> "" /\
      exists reply,
        r = [EvDo SiteRequest (sent_request c ctx method requestURL value (apikey w')) reply])) /\
    (p = [] \/
     (is_write call = true /\
      exists req body,
        r = [EvDo SiteRequest req (DoResp (ReadOk body))] /\
        p = [EvStdout (body ++ GoStrings.nl)] /\
        invoke c ctx call w = Returned None w')).
Proof.
  destruct (rejected call) as [e|] eqn:R.
  - destruct (request_of c call) as [[method requestURL] value].
    rewrite (invoke_rejected _ _ _ _ _ R). simpl.
    exists [], [], []. rewrite app_nil_r. auto.
  - pose proof (invoke_outcome c ctx call w R) as I.
    destruct (request_of c call) as [[method requestURL] value].
    destruct (doRequest_shape c ctx method requestURL value w) as [l [r [L [HL HR]]]].
    simpl in *. rewrite I. clear I.
    destruct HR as [[-> N]|[reply [-> [K E]]]].
    + exists l, [], []. split; [|auto].
      destruct (doRequest _ _ _ _ _ _) as [[body|e] w'|p w']; simpl in *;
        [now elim (N body)|exact L|exact L].
    + remember (world_of (doRequest c ctx method requestURL value w)) as w1 eqn:W1.
      rewrite E. clear E W1.
      destruct reply as [[body|e]|e|e]; simpl;
        try (exists l; eexists [_], []; split; [exact L|]; split; [exact HL|];
             split; [right; split; [exact K|eauto]|now left]).
      destruct (is_write call) eqn:W; simpl.
      * exists l. eexists [_]. eexists [_]. split; [|split; [exact HL|split]].
        -- rewrite L. now rewrite <- !app_assoc.
        -- right. split; [exact K|eauto].
        -- right. split; [reflexivity|]. eexists. exists body.
           split; [reflexivity|]. split; [reflexivity|].
           destruct call; try discriminate W; reflexivity.
      * exists l; eexists [_], []; split; [exact L|]; split; [exact HL|];
          split; [right; split; [exact K|eauto]|now left].
Qed.

(** X8: the events of one call of a public method, in order: a login
    exchange, only when no key is cached; then the request of the method,
    with its method, its URL, the value as body and the cached key in the
    authorization; then, for [AddHost], [UpdateHost] and [DeleteHost] after
    an answer that was read, the answer on standard output, and the call
    returns nil.  Each of the three at most once, and nothing else. *)
Theorem call_events c ctx call w :
  let '(method, requestURL, value) := request_of c call in
  let w' := world_of (invoke c ctx call w) in
  exists l r p,
    log w' = (log w ++ l ++ r ++ p)%list /\
    (l = [] \/ (apikey w = "" /\ exists req reply, l = [EvDo SiteLogin req reply])) /\
    (r = [] \/
     (apikey w' <> "" /\
      exists reply,
        r = [EvDo SiteRequest (sent_request c ctx method requestURL value (apikey w')) reply])) /\
    (p = [] \/
     (is_write call = true /\
      exists req body,
        r = [EvDo SiteRequest req (DoResp (ReadOk body))] /\
        p = [EvStdout (body ++ GoStrings.nl)] /\
        invoke c ctx call w = Returned None w')).
Proof. exact (invoke_shape c ctx call w). Qed.

(** X9: [DeleteHost] needs only a name.  With a name, the request it sends
    is a DELETE to the path of the name under [dns/custom], with the record
    type as one more element when there is one, and with the value as
    body when there is one. *)
Theorem DeleteHost_needs_only_a_name c ctx name recordType value w evs req reply :
  name <> "" ->
  log (world_of (DeleteHost c ctx name recordType value w)) = (log w ++ evs)%list ->
  In (EvDo SiteRequest req reply) evs ->
  req_method req = MethodDelete /\
  req_url req =
    url_String
      (url_JoinPath (url_JoinPath (ApiUrl c) ["dns"; "custom"])
         (if String.eqb recordType "" then [name] else [name; recordType])) /\
  req_body req = (if String.eqb value "" then None else Some value).
Proof.
  intros N L I.
  pose proof (invoke_shape c ctx (CallDeleteHost name recordType value) w) as S.
  simpl in S. destruct S as [l [r [p [E [HL [HR HP]]]]]].
  rewrite L in E. apply app_inv_head in E. subst evs.
  assert (In (EvDo SiteRequest req reply) r) as Ir.
  { apply in_app_or in I. destruct I as [I|I].
    - destruct HL as [->|[_ [lreq [lreply ->]]]]; [destruct I|].
      destruct I as [[=]|[]].
    - apply in_app_or in I. destruct I as [I|I]; [exact I|].
      destruct HP as [->|[_ [preq [body [_ [-> _]]]]]]; [destruct I|].
      destruct I as [[=]|[]]. }
  destruct HR as [->|[_ [reply0 ->]]]; [destruct Ir|].
  destruct Ir as [[= <- _]|[]]. unfold sent_request, getApiWithPath. simpl.
  rewrite (eqb_empty_false _ N). simpl.
  split; [reflexivity|]. split.
  - now destruct (String.eqb recordType "").
  - now destruct (String.eqb value "").
Qed.

(** The world a method that reads leaves is the world [doRequest] leaves. *)
Lemma read_after_doRequest {T} (decode : string -> Result T) c ctx method requestURL w
    evs req body :
  let run :=
    (apiResp ← doRequest c ctx method requestURL "";
     match apiResp with
     | Err err => mret (Err err)
     | Ok apiResp => mret (decode apiResp)
     end) in
  log (world_of (run w)) =
    (log w ++ evs ++ [EvDo SiteRequest req (DoResp (ReadOk body))])%list ->
  run w = Returned (decode body) (world_of (run w)).
Proof.
  simpl. go.
  pose proof (doRequest_last_exchange c ctx method requestURL "" w evs req
                (DoResp (ReadOk body))) as D.
  destruct (doRequest c ctx method requestURL "" w) as [[b|e] w'|p w']; simpl in *;
    intros H; specialize (D H); try discriminate D.
  now injection D as ->.
Qed.

(** X10: [GetZonefile] returns the body of the answer as it was read,
    whatever is in it. *)
Theorem GetZonefile_returns_the_body c ctx zone w evs req body :
  log (world_of (GetZonefile c ctx zone w)) =
    (log w ++ evs ++ [EvDo SiteRequest req (DoResp (ReadOk body))])%list ->
  GetZonefile c ctx zone w = Returned (Ok body) (world_of (GetZonefile c ctx zone w)).
Proof. apply (read_after_doRequest (fun b => Ok b)). Qed.

(** X11: [GetHosts] returns what [unmarshalRecords] makes of the body of
    the answer: the records, or the error of the decoding. *)
Theorem GetHosts_decodes_the_body c ctx name recordType w evs req body :
  log (world_of (GetHosts c ctx name recordType w)) =
    (log w ++ evs ++ [EvDo SiteRequest req (DoResp (ReadOk body))])%list ->
  GetHosts c ctx name recordType w =
  Returned (unmarshalRecords body) (world_of (GetHosts c ctx name recordType w)).
Proof. apply (read_after_doRequest unmarshalRecords). Qed.

(** X12: [GetZones] on the body of the answer: the zones when it decodes as
    a list of zone names; else, when it decodes as a status, the error
    [fmt.Errorf] makes of ["Error while decoding json: " + Reason], which
    is that text when the reason has no ['%']; else the error of the first
    decoding. *)
Theorem GetZones_decodes_the_body c ctx w evs req body :
  log (world_of (GetZones c ctx w)) =
    (log w ++ evs ++ [EvDo SiteRequest req (DoResp (ReadOk body))])%list ->
  GetZones c ctx w =
    Returned
      (match json_Unmarshal_zones body with
       | Ok zones => Ok zones
       | Err err =>
           match json_Unmarshal_status body with
           | Ok errorResult =>
               Err (fmt_Errorf0 ("Error while decoding json: " ++ Reason errorResult))
           | Err _ => Err err
           end
       end)
      (world_of (GetZones c ctx w)) /\
  forall errorResult,
    json_Unmarshal_status body = Ok errorResult ->
    GoStrings.has_percent (Reason errorResult) = false ->
    fmt_Errorf0 ("Error while decoding json: " ++ Reason errorResult) =
    "Error while decoding json: " ++ Reason errorResult.
Proof.
  intros H. split.
  - transitivity (Returned (unmarshalZones body) (world_of (GetZones c ctx w)));
      [exact (read_after_doRequest unmarshalZones _ _ _ _ _ _ _ _ H)|].
    unfold unmarshalZones.
    destruct (json_Unmarshal_zones body); [reflexivity|].
    now destruct (json_Unmarshal_status body).
  - intros st _ N. unfold fmt_Errorf0. apply fmt_Sprintf0_plain.
    rewrite has_percent_app. exact N.
Qed.

End MoreSession.

(** * More properties of the command *)

Section MoreCommandLine.

Context {P : Platform}.

Import miabdns.

Lemma known_command f call :
  cli_call f = Some call ->
  GoStrings.slices_Contains commands (effective_command f) = true.
Proof.
  unfold cli_call, GoStrings.slices_Contains, commands. simpl.
  repeat (destruct (String.eqb (effective_command f) _); [now rewrite ?orb_true_r|]).
  discriminate.
Qed.

Lemma printZones_log zones w :
  printZones zones w =
  Returned tt
    {| apikey := apikey w;
       log := (log w ++ map (fun dz => EvStdout ("Zone: " ++ dz ++ GoStrings.nl)) zones)%list |}.
Proof.
  revert w. induction zones as [|dz rest IH]; intros w; simpl.
  - rewrite app_nil_r. now destruct w.
  - go. simpl. rewrite IH. simpl. now rewrite <- app_assoc.
Qed.

(** X13: a URL that does not parse ends every known command with the panic
    of [New], before anything is checked or sent. *)
Theorem unparsable_url_panics f w e :
  GoStrings.slices_Contains commands (effective_command f) = true ->
  url_Parse (url f) = Err e ->
  run f w = crashed e w.
Proof.
  intros K U. unfold run, main, New. fold (effective_command f).
  rewrite K, U. reflexivity.
Qed.

(** X14: [add] and [update] need the three flags.  With one of them empty
    the command panics with its own message before the client is used:
    exit status 2, the message on standard error, nothing sent. *)
Theorem add_update_need_three_flags f u w :
  command f = "add" \/ command f = "update" ->
  url_Parse (url f) = Ok u ->
  recordName f = "" \/ recordType f = "" \/ recordValue f = "" ->
  run f w =
  crashed ("Missing parameters to " ++ command f
             ++ " command. all are required. rname: " ++ recordName f
             ++ ", rtype: " ++ recordType f ++ ", rvalue: " ++ recordValue f ++ " ") w.
Proof.
  intros C U E.
  assert (String.eqb (recordName f) "" || String.eqb (recordType f) ""
          || String.eqb (recordValue f) "" = true) as B.
  { destruct E as [->|[->| ->]]; rewrite ?String.eqb_refl, ?orb_true_r; reflexivity. }
  unfold run, main, New, addRecord, updateRecord.
  destruct C as [-> | ->]; simpl; rewrite U; go; simpl; rewrite B; reflexivity.
Qed.

(** X15: [delete] needs a name and a type, though [DeleteHost] asks for the
    name only: with one of the two flags empty the command panics with its
    own message and nothing is sent. *)
Theorem delete_needs_name_and_type f u w :
  command f = "delete" ->
  url_Parse (url f) = Ok u ->
  recordName f = "" \/ recordType f = "" ->
  run f w =
  crashed "Missing parameters to delete command. rname and rtype are required." w.
Proof.
  intros C U E.
  assert (String.eqb (recordName f) "" || String.eqb (recordType f) "" = true) as B.
  { destruct E as [->| ->]; rewrite ?String.eqb_refl, ?orb_true_r; reflexivity. }
  unfold run, main, New, deleteRecord.
  rewrite C; simpl; rewrite U; go; simpl; rewrite B.
  unfold fmt_Errorf0. rewrite fmt_Sprintf0_plain by reflexivity. reflexivity.
Qed.

(** X16: [zonefile] needs a zone: without one the command panics with its
    own message and nothing is sent. *)
Theorem zonefile_needs_zone f u w :
  command f = "zonefile" ->
  url_Parse (url f) = Ok u ->
  zone f = "" ->
  run f w = crashed "Zone for which to retrieve the zonefile must be provided" w.
Proof.
  intros C U Z. unfold run, main, New.
  rewrite C; simpl; rewrite U; go; simpl; rewrite Z. simpl.
  unfold fmt_Errorf0. rewrite fmt_Sprintf0_plain by reflexivity. reflexivity.
Qed.

(** X17: a command whose flags pass its check makes one call of the
    library with the client of the flags, and the call decides how the
    process ends.  An error the call returns, and a panic in it, end the
    process with exit status 2 and the error on standard error; when the
    call returns nil the exit status is 0 and only standard output is
    written after the call. *)
Theorem command_outcome f u call w :
  cli_call f = Some call ->
  url_Parse (url f) = Ok u ->
  match invoke (cli_client f u) context_TODO call w with
  | Returned (Some e) w' => run f w = crashed e w'
  | Panicked p w' => run f w = crashed p w'
  | Returned None w' =>
      exists outs,
        run f w =
        {| exit_status := 0;
           exit_world :=
             {| apikey := apikey w'; log := (log w' ++ map EvStdout outs)%list |} |}
  end.
Proof.
  intros C U. pose proof (known_command f call C) as K.
  unfold run, main, New. fold (effective_command f). rewrite K, U. simpl.
  unfold cli_call in C. simpl in C.
  fold (cli_client f u).
  go. simpl.
  destruct (String.eqb (effective_command f) "list").
  { injection C as <-. unfold getRecords, invoke. go.
    destruct (GetHosts _ _ _ _ _) as [[rs|e] w'|p w']; simpl; try reflexivity.
    eexists [_]. reflexivity. }
  destruct (String.eqb (effective_command f) "add").
  { unfold addRecord.
    destruct (_ || _); [discriminate|]. injection C as <-. simpl. go.
    destruct (AddHost _ _ _ _ _ _) as [[e|] w'|p w']; simpl; try reflexivity.
    eexists [_]. reflexivity. }
  destruct (String.eqb (effective_command f) "update").
  { unfold updateRecord.
    destruct (_ || _); [discriminate|]. injection C as <-. simpl. go.
    destruct (UpdateHost _ _ _ _ _ _) as [[e|] w'|p w']; simpl; try reflexivity.
    eexists [_]. reflexivity. }
  destruct (String.eqb (effective_command f) "delete").
  { unfold deleteRecord.
    destruct (_ || _); [discriminate|]. injection C as <-. simpl. go.
    destruct (DeleteHost _ _ _ _ _ _) as [[e|] w'|p w']; simpl; try reflexivity.
    eexists [_]. reflexivity. }
  destruct (String.eqb (effective_command f) "zones").
  { injection C as <-. unfold getZones, invoke. go.
    destruct (GetZones _ _ _) as [[zs|e] w'|p w']; simpl; try reflexivity.
    rewrite printZones_log. simpl. eexists. now rewrite <- map_map. }
  destruct (String.eqb (effective_command f) "zonefile"); [|discriminate].
  destruct (String.eqb (zone f) ""); [discriminate|]. injection C as <-.
  unfold getZonefile, invoke, printZonefile. go.
  destruct (GetZonefile _ _ _ _) as [[zf|e] w'|p w']; simpl; try reflexivity.
  eexists [_; _]. simpl. now rewrite <- app_assoc.
Qed.

End MoreCommandLine.

(** * Properties of the earlier version *)

Section Earlier.

Context {P : Platform}.

Variable url_SetUser : URL -> string -> string -> URL.

(** X18: the earlier [GetHosts] sends one request and nothing else: a GET to
    the API URL itself when the name is empty, with no header of its own
    and no login, and the key is not touched.  An error of the round trip,
    with or without a response, is returned and does not panic; a body is
    decoded as records, with no second reading as a status. *)
Theorem earlier_GetHosts_outcome (c : gomiabdns_v0.Client) ctx name recordType w :
  let apiUrl :=
    if String.eqb name "" then gomiabdns_v0.ApiUrl c
    else if String.eqb recordType "" then url_JoinPath (gomiabdns_v0.ApiUrl c) [name]
    else url_JoinPath (gomiabdns_v0.ApiUrl c) [name; recordType] in
  http_NewRequest_error ctx MethodGet (url_String apiUrl) = None ->
  let req :=
    {| req_ctx := ctx; req_method := MethodGet; req_url := url_String apiUrl;
       req_header := ∅; req_body := None |} in
  let reply := http_RoundTrip (log w) req in
  gomiabdns_v0.GetHosts c ctx name recordType w =
  Returned
    (match reply with
     | DoResp (ReadOk body) => json_Unmarshal_records body
     | DoResp (ReadErr err) => Err err
     | DoErrNil err => Err err
     | DoErrResp err => Err err
     end)
    {| apikey := apikey w; log := (log w ++ [EvDo SiteRequest req reply])%list |}.
Proof.
  unfold gomiabdns_v0.GetHosts, gomiabdns_v0.doRequest, gomiabdns_v0.getApiWithPath,
    gomiabdns_v0.unmarshalRecords, http_NewRequestWithContext.
  destruct (String.eqb name ""); simpl;
    [|destruct (String.eqb recordType ""); simpl];
    intros H; unfold RecordType in *; rewrite H; go; simpl;
    (destruct (http_RoundTrip _ _) as [[body|e]|e|e]; simpl; try reflexivity;
     now destruct (json_Unmarshal_records body)).
Qed.

(** X19: the earlier command knows four commands: any other one that is
    not empty, [zones] and [zonefile] among them, prints the usage line
    with the four and returns with exit status 0, and no client is made. *)
Theorem earlier_unknown_command_prints_usage (f : miabdns_v0.Flags) w :
  miabdns_v0.command f <> "" ->
  GoStrings.slices_Contains miabdns_v0.commands (miabdns_v0.command f) = false ->
  miabdns_v0.run url_SetUser f w =
  {| miabdns.exit_status := 0;
     miabdns.exit_world :=
       {| apikey := apikey w;
          log := (log w ++ [EvStdout
                              ("The command argument must be a valid command: list,add,update,delete"
                                 ++ GoStrings.nl)])%list |} |}.
Proof.
  intros E C. unfold miabdns_v0.run, miabdns_v0.main.
  rewrite (eqb_empty_false _ E), C. reflexivity.
Qed.

(** X20: in the earlier version a URL that does not parse ends every known
    command with the panic of a nil pointer, not with the error of the
    parsing: [New] assigns the user to the URL before it looks at the
    error. *)
Theorem earlier_unparsable_url_panics (f : miabdns_v0.Flags) w e :
  GoStrings.slices_Contains miabdns_v0.commands
    (if String.eqb (miabdns_v0.command f) "" then "list" else miabdns_v0.command f) = true ->
  url_Parse (miabdns_v0.url f) = Err e ->
  miabdns_v0.run url_SetUser f w = crashed nil_dereference w.
Proof.
  intros K U. unfold miabdns_v0.run, miabdns_v0.main, gomiabdns_v0.New.
  rewrite K, U. reflexivity.
Qed.

End Earlier.

(** * Sequences of calls *)

Section Sequences.

Context {P : Platform}.

Lemma request_calls_app (l1 l2 : list Event) :
  request_calls (l1 ++ l2) = request_calls l1 + request_calls l2.
Proof. unfold request_calls. now rewrite List.filter_app, length_app. Qed.

(** The events of one call hold at most one login exchange and at most one
    exchange of a request. *)
Lemma invoke_counts c ctx call w :
  exists evs,
    log (world_of (invoke c ctx call w)) = (log w ++ evs)%list /\
    login_calls evs <= 1 /\ request_calls evs <= 1.
Proof.
  pose proof (invoke_shape c ctx call w) as S.
  destruct (request_of c call) as [[method requestURL] value]. simpl in S.
  destruct S as [l [r [p [E [HL [HR HP]]]]]].
  exists (l ++ r ++ p)%list. split; [exact E|].
  rewrite !login_calls_app, !request_calls_app.
  assert (login_calls l <= 1 /\ request_calls l = 0) as [L1 L2]
    by (destruct HL as [->|[_ [req [reply ->]]]]; split; cbv; lia).
  assert (login_calls r = 0 /\ request_calls r <= 1) as [R1 R2]
    by (destruct HR as [->|[_ [reply ->]]]; split; cbv; lia).
  assert (login_calls p = 0 /\ request_calls p = 0) as [P1 P2]
    by (destruct HP as [->|[_ [req [body [_ [-> _]]]]]]; split; reflexivity).
  lia.
Qed.

(** X21: however many calls a program makes, with whatever clients and
    parameters, the log only grows, and it grows by at most one login
    exchange and one exchange of a request for each call. *)
Theorem calls_send_at_most_two_requests_each calls w :
  exists evs,
    log (world_of (invoke_all calls w)) = (log w ++ evs)%list /\
    login_calls evs <= List.length calls /\
    request_calls evs <= List.length calls.
Proof.
  revert w. induction calls as [|[[c ctx] call] rest IH]; intros w; simpl.
  - exists []. rewrite app_nil_r. cbv. auto.
  - destruct (invoke_counts c ctx call w) as [e1 [E1 [L1 R1]]]. go.
    destruct (invoke c ctx call w) as [r w1|p w1]; simpl in *.
    + destruct (IH w1) as [e2 [E2 [L2 R2]]].
      exists (e1 ++ e2)%list. rewrite E2, E1, <- app_assoc.
      rewrite login_calls_app, request_calls_app. split; [reflexivity|]. lia.
    + exists e1. split; [exact E1|]. lia.
Qed.

(** X22: without a key, a call that passes its check starts with the login
    request, when that request can be built and the code, with a TOTP
    secret, can be generated; no other login exchange follows in that
    call.  So a login that failed is tried again by the next call. *)
Theorem call_without_key_logs_in c ctx call w token :
  rejected call = None ->
  apikey w = "" ->
  http_NewRequest_error ctx MethodPost (loginURL c) = None ->
  (token = None /\ totp_secret c = "") \/
  (exists code,
     token = Some code /\ totp_secret c <> "" /\
     totp_GenerateCode (totp_secret c) (time_Now (log w)) = Ok code) ->
  let req := login_request c ctx token in
  exists evs,
    log (world_of (invoke c ctx call w)) =
      (log w ++ EvDo SiteLogin req (http_RoundTrip (log w) req) :: evs)%list /\
    login_calls evs = 0.
Proof.
  intros R K B T.
  assert (login_attempt c ctx w = Some (login_request c ctx token)) as A.
  { unfold login_attempt. rewrite B, K. simpl.
    destruct T as [[-> ->]|[code [-> [N G]]]]; [reflexivity|].
    now rewrite (eqb_empty_false _ N), G. }
  pose proof (invoke_quiet_after_login c ctx call w R) as Q.
  pose proof (doLogin_world c ctx w) as D. rewrite A in D. destruct D as [k D].
  rewrite D in Q. destruct Q as [_ [evs [Q N]]]. simpl in *.
  exists evs. split; [|exact N]. now rewrite <- app_assoc in Q.
Qed.

(** X23: [printZones] writes one line for each zone, in the order of the
    list, to standard output, and does nothing else. *)
Theorem printZones_writes_a_line_for_each_zone zones w :
  miabdns.printZones zones w =
  Returned tt
    {| apikey := apikey w;
       log := (log w ++ map (fun dz => EvStdout ("Zone: " ++ dz ++ GoStrings.nl)) zones)%list |}.
Proof. exact (printZones_log zones w). Qed.

End Sequences.

(** * The further properties on the boxes *)

Module MoreOnTheBox.

Import miabdns Box Box2.

(** X2 on the box: the host that answers the login with an empty list, so
    with no status. *)
Lemma doLogin_unforeseen_status_witness :
  doLogin stranger ctx fresh =
  Returned (Some ("Unforeseen return value: " ++ ""))
    {| apikey := "";
       log := (log fresh ++ [EvDo SiteLogin (login_request stranger ctx None)
                               (DoResp (ReadOk "[]"))])%list |}.
Proof.
  apply (doLogin_unforeseen_status (P:=Demo.platform) stranger ctx fresh
           (login_request stranger ctx None) "[]");
    [vm_compute; reflexivity|discriminate|discriminate|reflexivity].
Defined.

(** X3 on the box: a secret that is no base32. *)
Lemma totp_failure_sends_nothing_witness :
  invoke (with_secret "NO!") ctx CallGetZones fresh =
  Returned
    (Some ("Could not login: Error generating TOTP token: "
             ++ "Decoding of secret as base32 failed."))
    fresh.
Proof.
  apply (totp_failure_sends_nothing (P:=Demo.platform) (with_secret "NO!") ctx
           CallGetZones fresh "Decoding of secret as base32 failed.");
    try reflexivity.
  discriminate.
Defined.

(** X4 on the box: the login of the administrator, and of a client with a
    secret. *)
Lemma login_request_shape_witness :
  let req := login_request (with_secret "JBSWY3DPEHPK3PXP") ctx (Some "123456") in
  SiteLogin = SiteLogin /\ req_ctx req = ctx /\ req_method req = MethodPost /\
  req_url req = loginURL (with_secret "JBSWY3DPEHPK3PXP") /\ req_body req = None /\
  Header.Values (req_header req) "Accept" = ["JSON"] /\
  Header.Values (req_header req) "Authorization" =
    ["Basic " ++ Base64.EncodeToString ("admin@example.com" ++ ":" ++ "secret")] /\
  exists token,
    Demo.generateCode "JBSWY3DPEHPK3PXP" 1700000000 = Ok token /\
    Header.Values (req_header req) "x-auth-token" = [token].
Proof.
  apply (login_request_shape (P:=Demo.platform) (with_secret "JBSWY3DPEHPK3PXP") ctx fresh
           [EvDo SiteLogin (login_request (with_secret "JBSWY3DPEHPK3PXP") ctx (Some "123456"))
              (DoResp (ReadOk admin_answer))]
           SiteLogin _ (DoResp (ReadOk admin_answer))).
  - vm_compute. reflexivity.
  - left. reflexivity.
Defined.

(** X5 on the box: a nil context, with the key of the administrator
    cached. *)
Lemma unbuildable_login_request_blocks_calls_witness :
  invoke admin ctx_nil (CallGetHosts "" "") logged_in =
  Returned (Some "Could not login: net/http: nil Context") logged_in.
Proof.
  apply (unbuildable_login_request_blocks_calls (P:=Demo.platform) admin ctx_nil
           (CallGetHosts "" "") logged_in "net/http: nil Context"); reflexivity.
Defined.

(** X6 on the second box. *)
Lemma empty_api_key_is_no_login_witness :
  let after :=
    {| apikey := "";
       log := (log fresh ++ [EvDo SiteLogin (login_request keyless ctx None)
                               (DoResp (ReadOk keyless_answer))])%list |} in
  doLogin keyless ctx fresh = Returned None after /\
  invoke keyless ctx CallGetZones fresh = Returned (Some "Could not login") after.
Proof.
  apply (empty_api_key_is_no_login (P:=keyless_platform) keyless ctx CallGetZones fresh
           (login_request keyless ctx None) keyless_answer);
    vm_compute; reflexivity.
Defined.

(** X7 on the box: the request for the records, answered with the empty
    list. *)
Lemma doRequest_reply_decides_witness :
  let requestURL := "https://box.example.com/admin/dns/custom" in
  doRequest admin ctx MethodGet requestURL "" fresh =
  Returned (Ok "[]") (world_of (doRequest admin ctx MethodGet requestURL "" fresh)).
Proof.
  apply (doRequest_reply_decides (P:=Demo.platform) admin ctx MethodGet
           "https://box.example.com/admin/dns/custom" "" fresh
           [EvDo SiteLogin (login_request admin ctx None) (DoResp (ReadOk admin_answer))]
           (sent_request admin ctx MethodGet
              "https://box.example.com/admin/dns/custom" "" "k3y")
           (DoResp (ReadOk "[]"))).
  vm_compute. reflexivity.
Defined.

(** X9 on the box: a name and nothing else. *)
Lemma DeleteHost_needs_only_a_name_witness :
  let req :=
    sent_request admin ctx MethodDelete
      "https://box.example.com/admin/dns/custom/www.example.com" "" "k3y" in
  req_method req = MethodDelete /\
  req_url req = "https://box.example.com/admin/dns/custom/www.example.com" /\
  req_body req = None.
Proof.
  apply (DeleteHost_needs_only_a_name (P:=Demo.platform) admin ctx "www.example.com" "" ""
           logged_in
           [EvDo SiteRequest
              (sent_request admin ctx MethodDelete
                 "https://box.example.com/admin/dns/custom/www.example.com" "" "k3y")
              (DoResp (ReadOk "[]"));
            EvStdout ("[]" ++ GoStrings.nl)]
           _ (DoResp (ReadOk "[]"))).
  - discriminate.
  - vm_compute. reflexivity.
  - left. reflexivity.
Defined.

(** X10 on the box. *)
Lemma GetZonefile_returns_the_body_witness :
  GetZonefile admin ctx "example.com" logged_in =
  Returned (Ok "[]") (world_of (GetZonefile admin ctx "example.com" logged_in)).
Proof.
  apply (GetZonefile_returns_the_body (P:=Demo.platform) admin ctx "example.com" logged_in []
           (sent_request admin ctx MethodGet
              "https://box.example.com/admin/dns/zonefile/example.com" "" "k3y")
           "[]").
  vm_compute. reflexivity.
Defined.

(** X11 on the box. *)
Lemma GetHosts_decodes_the_body_witness :
  GetHosts admin ctx "" "" logged_in =
  Returned (unmarshalRecords (P:=Demo.platform) "[]")
    (world_of (GetHosts admin ctx "" "" logged_in)).
Proof.
  apply (GetHosts_decodes_the_body (P:=Demo.platform) admin ctx "" "" logged_in []
           (sent_request admin ctx MethodGet
              "https://box.example.com/admin/dns/custom" "" "k3y")
           "[]").
  vm_compute. reflexivity.
Defined.

(** X12 on the box. *)
Lemma GetZones_decodes_the_body_witness :
  GetZones admin ctx logged_in = Returned (Ok []) (world_of (GetZones admin ctx logged_in)).
Proof.
  apply (GetZones_decodes_the_body (P:=Demo.platform) admin ctx logged_in []
           (sent_request admin ctx MethodGet
              "https://box.example.com/admin/dns/zones" "" "k3y")
           "[]").
  vm_compute. reflexivity.
Defined.

(** X13 on the box: a URL with a blank in it. *)
Lemma unparsable_url_panics_witness :
  run (P:=Demo.platform) (flags "zones" "not a url" "" "" "" "") fresh =
  crashed ("parse " ++ Demo.quoted "not a url" ++ ": invalid character in URL") fresh.
Proof.
  apply (unparsable_url_panics (P:=Demo.platform)); reflexivity.
Defined.

(** X14 on the box: [add] without a value. *)
Lemma add_update_need_three_flags_witness :
  run (P:=Demo.platform) (flags "add" box_url "www.example.com" "A" "" "") fresh =
  crashed ("Missing parameters to " ++ "add"
             ++ " command. all are required. rname: " ++ "www.example.com"
             ++ ", rtype: " ++ "A" ++ ", rvalue: " ++ "" ++ " ") fresh.
Proof.
  apply (add_update_need_three_flags (P:=Demo.platform)
           (flags "add" box_url "www.example.com" "A" "" "") box_url fresh).
  - left. reflexivity.
  - reflexivity.
  - right. right. reflexivity.
Defined.

(** X15 on the box: [delete] with a name and no type. *)
Lemma delete_needs_name_and_type_witness :
  run (P:=Demo.platform) (flags "delete" box_url "www.example.com" "" "" "") fresh =
  crashed "Missing parameters to delete command. rname and rtype are required." fresh.
Proof.
  apply (delete_needs_name_and_type (P:=Demo.platform)
           (flags "delete" box_url "www.example.com" "" "" "") box_url fresh).
  - reflexivity.
  - reflexivity.
  - right. reflexivity.
Defined.

(** X16 on the box. *)
Lemma zonefile_needs_zone_witness :
  run (P:=Demo.platform) (flags "zonefile" box_url "" "" "" "") fresh =
  crashed "Zone for which to retrieve the zonefile must be provided" fresh.
Proof.
  apply (zonefile_needs_zone (P:=Demo.platform)
           (flags "zonefile" box_url "" "" "" "") box_url fresh); reflexivity.
Defined.

(** X17 on the box: the command [add] of the administrator, and the
    command [zones] of a user without privileges. *)
Lemma command_outcome_witness :
  (exists outs,
     run (P:=Demo.platform) (flags "add" box_url "www.example.com" "A" "192.0.2.1" "") fresh =
     {| exit_status := 0;
        exit_world :=
          {| apikey := "k3y";
             log :=
               (log (world_of (AddHost admin context_TODO "www.example.com" "A" "192.0.2.1"
                                 fresh))
                  ++ map EvStdout outs)%list |} |}) /\
  run (P:=Demo.platform)
    {| email := "user@example.com"; password := "secret"; url := box_url; totp := "";
       command := "zones"; recordType := ""; recordName := ""; recordValue := "";
       zone := "" |} fresh =
  crashed "Could not login: Account does not have admin priveleges"
    (world_of (doLogin user context_TODO fresh)).
Proof.
  split.
  - exact (command_outcome (P:=Demo.platform)
             (flags "add" box_url "www.example.com" "A" "192.0.2.1" "") box_url
             (CallAddHost "www.example.com" "A" "192.0.2.1") fresh eq_refl eq_refl).
  - exact (command_outcome (P:=Demo.platform)
             {| email := "user@example.com"; password := "secret"; url := box_url;
                totp := ""; command := "zones"; recordType := ""; recordName := "";
                recordValue := ""; zone := "" |} box_url CallGetZones fresh eq_refl eq_refl).
Defined.

(** X18 on the box: the earlier client lists all records. *)
Lemma earlier_GetHosts_outcome_witness :
  let req :=
    {| req_ctx := ctx; req_method := MethodGet;
       req_url := "https://admin@example.com:secret@box.example.com/admin/dns/custom";
       req_header := ∅; req_body := None |} in
  gomiabdns_v0.GetHosts earlier_client ctx "" "" fresh =
  Returned (Ok [])
    {| apikey := ""; log := [EvDo SiteRequest req (DoResp (ReadOk "[]"))] |}.
Proof.
  apply (earlier_GetHosts_outcome (P:=Demo.platform) earlier_client ctx "" "" fresh).
  reflexivity.
Defined.

(** X19 on the box: the earlier command does not know [zones]. *)
Lemma earlier_unknown_command_prints_usage_witness :
  miabdns_v0.run (P:=Demo.platform) setUser (earlier_flags "zones" box_url) fresh =
  {| exit_status := 0;
     exit_world :=
       {| apikey := "";
          log := [EvStdout
                    ("The command argument must be a valid command: list,add,update,delete"
                       ++ GoStrings.nl)] |} |}.
Proof.
  apply (earlier_unknown_command_prints_usage (P:=Demo.platform) setUser
           (earlier_flags "zones" box_url) fresh); [discriminate|reflexivity].
Defined.

(** X20 on the box: the earlier command with a URL with a blank in it. *)
Lemma earlier_unparsable_url_panics_witness :
  miabdns_v0.run (P:=Demo.platform) setUser (earlier_flags "list" "not a url") fresh =
  crashed nil_dereference fresh.
Proof.
  apply (earlier_unparsable_url_panics (P:=Demo.platform) setUser
           (earlier_flags "list" "not a url") fresh
           ("parse " ++ Demo.quoted "not a url" ++ ": invalid character in URL"));
    reflexivity.
Defined.

(** X22 on the box: the administrator, after the login of the user was
    refused for the missing privilege. *)
Lemma call_without_key_logs_in_witness :
  let w := world_of (doLogin user ctx fresh) in
  let req := login_request admin ctx None in
  apikey w = "" /\
  exists evs,
    log (world_of (invoke admin ctx CallGetZones w)) =
      (log w ++ EvDo SiteLogin req (Demo.box (log w) req) :: evs)%list /\
    login_calls evs = 0.
Proof.
  split; [reflexivity|].
  apply (call_without_key_logs_in (P:=Demo.platform) admin ctx CallGetZones
           (world_of (doLogin user ctx fresh)) None); try reflexivity.
  left. split; reflexivity.
Defined.

End MoreOnTheBox.
